(** * xiaomi.py: the psychrometric calculator and its BLE glue

    A shallow embedding of [src/xiaomi.py].

    Python floats are modelled by the real numbers of the Standard
    Library: every arithmetic operation is the exact one, [math.exp] and
    [math.log] are [exp] and [ln].  The rounding error of binary64,
    overflow, infinities and NaN are outside this model.  What the model
    keeps is every place where the Python code can raise on real
    arguments: a float division by zero ([ZeroDivisionError]), [math.log]
    of a non-positive number and [float()] of a malformed literal
    ([ValueError]), and [bytes.decode()] of ill-formed UTF-8
    ([UnicodeDecodeError]).

    What it leaves out, and how the statements allow for it:
    - [math.exp] raises [OverflowError] above about 709.78 and returns
      0.0 below about -745, after which [math.log] raises; a product
      that overflows makes [round] raise.  In each case the Python
      constructor returns no Measurement where the model builds one.
      Statements about the fields that reach beyond the working range
      of the sensor are therefore made for a Measurement that the
      constructor returns, and a statement that the constructor raises
      does not name the exception beyond the division for [z1].
    - A binary64 result is within a relative 2^-53 of the exact one, so
      a value just below a multiple of 0.1 may be computed as that
      multiple.  Statements that compare a field with a formula carry a
      tolerance or a margin, and stay away from the two cancellations of
      the code, [273.15 + temperatureC] and [7.45 - z3], and from the
      subnormal numbers. *)

From Stdlib Require Import Reals Zfloor Lra Lia ZArith List String Ascii Bool.
From Stdlib Require Import DecimalString.
Import ListNotations.

Open Scope R_scope.
Open Scope string_scope.

(** * Part I: the program *)

(** ** Exceptions and the result monad *)

Inductive exn : Type :=
| ZeroDivisionError
| ValueError
| UnicodeDecodeError.

Inductive result (A : Type) : Type :=
| Ok (a : A)
| Raise (e : exn).

Arguments Ok {A} a.
Arguments Raise {A} e.

Definition bind {A B : Type} (r : result A) (k : A -> result B) : result B :=
  match r with
  | Ok a => k a
  | Raise e => Raise e
  end.

Notation "x <- r ;; k" := (bind r (fun x => k))
  (at level 61, r at next level, right associativity).

Definition raises {A : Type} (r : result A) : Prop :=
  exists e, r = Raise e.

(** ** The Python primitives the calculator uses *)

Module Py.

(** [x / y] on floats: raises on a zero divisor. *)
Definition truediv (x y : R) : result R :=
  if Req_dec_T y 0 then Raise ZeroDivisionError else Ok (x / y).

(** [math.log(x)]: raises "math domain error" unless [0 < x]. *)
Definition math_log (x : R) : result R :=
  if Rlt_dec 0 x then Ok (ln x) else Raise ValueError.

(** [math.exp(x)], on the reals: total. *)
Definition math_exp (x : R) : R := exp x.

(** [int(x)]: truncation toward zero. *)
Definition int (x : R) : Z :=
  if Rle_dec 0 x then Zfloor x else Zceil x.

(** [round(x)] with one argument: the nearest integer, a tie going to
    the even neighbour. *)
Definition round (x : R) : Z :=
  let f := Zfloor x in
  let d := x - IZR f in
  if Rlt_dec d (1 / 2) then f
  else if Rlt_dec (1 / 2) d then (f + 1)%Z
  else if Z.even f then f else (f + 1)%Z.

End Py.

(** ** class Measurement *)

Record Measurement : Type := mkMeasurement {
  temperatureC : R;
  relHumidity : R;
  absHumidity : R;
  dewPointC : R;
  steamPressure : R;
  temperatureF : R;
  dewPointF : R
}.

(** [Measurement.__init__], statement by statement.  A division by a
    literal cannot raise and is written [/]; the three divisions by an
    expression of the arguments go through [Py.truediv], in the order in
    which the source evaluates them. *)
Definition Measurement_init (temperatureC relHumidity : R) : result Measurement :=
  z1 <- Py.truediv (7.45 * temperatureC) (235 + temperatureC) ;;
  let es := 6.1 * Py.math_exp (z1 * 2.3025851) in
  let e := es * relHumidity / 100 in
  let z2 := e / 6.1 in
  a <- Py.truediv (216.7 * e) (273.15 + temperatureC) ;;
  let absHumidity := IZR (Py.round (a * 10)) / 10 in
  l <- Py.math_log z2 ;;
  let z3 := 0.434292289 * l in
  d <- Py.truediv (235 * z3) (7.45 - z3) ;;
  let dewPointC := IZR (Py.int (d * 10)) / 10 in
  let steamPressure := IZR (Py.int (e * 10)) / 10 in
  let temperatureF := temperatureC * 9 / 5 + 32 in
  let dewPointF := dewPointC * 9 / 5 + 32 in
  Ok (mkMeasurement temperatureC relHumidity absHumidity dewPointC
        steamPressure temperatureF dewPointF).

(** [Measurement.to_dict]: a Python dict keeps insertion order, so the
    result is the list of its items. *)
Definition to_dict (self : Measurement) : list (string * R) :=
  [ ("temperatureC"%string, temperatureC self);
    ("temperatureF"%string, temperatureF self);
    ("relHumidity"%string, relHumidity self);
    ("absHumidity"%string, absHumidity self);
    ("dewPointC"%string, dewPointC self);
    ("dewPointF"%string, dewPointF self);
    ("steamPressure"%string, steamPressure self) ].

Definition keys {V : Type} (d : list (string * V)) : list string := map fst d.

Fixpoint get {V : Type} (d : list (string * V)) (k : string) : option V :=
  match d with
  | [] => None
  | (k', v) :: d' => if String.eqb k k' then Some v else get d' k
  end.

(** ** The notification handler *)

Module Bytes.

Definition code (c : ascii) : N := N_of_ascii c.

Definition between (lo hi : N) (c : ascii) : bool :=
  ((lo <=? code c) && (code c <=? hi))%N.

(** The ranges of the continuation bytes that a leading byte of
    well-formed UTF-8 asks for; [None] for a byte that cannot lead. *)
Definition lead (c : ascii) : option (list (N * N)) :=
  let n := code c in
  let tail := (128, 191)%N in
  if (n <=? 127)%N then Some []
  else if ((194 <=? n) && (n <=? 223))%N then Some [tail]
  else if (n =? 224)%N then Some [(160, 191)%N; tail]
  else if ((225 <=? n) && (n <=? 236))%N then Some [tail; tail]
  else if (n =? 237)%N then Some [(128, 159)%N; tail]
  else if ((238 <=? n) && (n <=? 239))%N then Some [tail; tail]
  else if (n =? 240)%N then Some [(144, 191)%N; tail; tail]
  else if ((241 <=? n) && (n <=? 243))%N then Some [tail; tail; tail]
  else if (n =? 244)%N then Some [(128, 143)%N; tail; tail]
  else None.

Fixpoint well_formed (pending : list (N * N)) (s : string) : bool :=
  match s with
  | EmptyString => match pending with [] => true | _ => false end
  | String c s' =>
      match pending with
      | (lo, hi) :: p => between lo hi c && well_formed p s'
      | [] => match lead c with
              | Some p => well_formed p s'
              | None => false
              end
      end
  end.

(** [bytes.decode()]: strict UTF-8.  The decoded text is kept as its
    bytes: the pattern below names ASCII characters only, and in
    well-formed UTF-8 a byte under 128 is always that character. *)
Definition decode (bytes : string) : result string :=
  if well_formed [] bytes then Ok bytes else Raise UnicodeDecodeError.

End Bytes.

Module Re.

(** The character class [[0-9\.]]. *)
Definition num_char (c : ascii) : bool :=
  ((48 <=? N_of_ascii c) && (N_of_ascii c <=? 57))%N || Ascii.eqb c ".".

(** The longest prefix of [s] in the class, and what follows it. *)
Fixpoint span (s : string) : string * string :=
  match s with
  | EmptyString => (EmptyString, EmptyString)
  | String c s' =>
      if num_char c then let (g, r) := span s' in (String c g, r)
      else (EmptyString, s)
  end.

Fixpoint strip (p s : string) : option string :=
  match p, s with
  | EmptyString, _ => Some s
  | String a p', String b s' => if Ascii.eqb a b then strip p' s' else None
  | String _ _, EmptyString => None
  end.

(** [re.match("T=([0-9\.]+) H=([0-9\.]+)", response)], returning the two
    groups.  A greedy [+] over the class takes the longest run: giving a
    character back would leave a class character where the pattern wants
    the space, so backtracking never finds another match. *)
Definition match_ (response : string) : option (string * string) :=
  match strip "T=" response with
  | None => None
  | Some r1 =>
      let (g1, r2) := span r1 in
      match g1 with
      | EmptyString => None
      | String _ _ =>
          match strip " H=" r2 with
          | None => None
          | Some r3 =>
              let (g2, _) := span r3 in
              match g2 with
              | EmptyString => None
              | String _ _ => Some (g1, g2)
              end
          end
      end
  end.

End Re.

(** [float(s)] for a string of digits and dots, the only strings the
    handler passes: at most one dot and at least one digit, else
    [ValueError].  The state is the digits read so far as an integer, the
    number of them after the dot, whether the dot was seen, and whether a
    digit was. *)
Fixpoint float_scan (s : string) (mant : Z) (frac : nat) (dot digit : bool)
  : result R :=
  match s with
  | EmptyString =>
      if digit then Ok (IZR mant / IZR (10 ^ Z.of_nat frac)) else Raise ValueError
  | String c s' =>
      if Ascii.eqb c "." then
        if dot then Raise ValueError else float_scan s' mant frac true digit
      else if ((48 <=? N_of_ascii c) && (N_of_ascii c <=? 57))%N then
        float_scan s' (mant * 10 + (Z.of_N (N_of_ascii c) - 48))
          (if dot then S frac else frac) dot true
      else Raise ValueError
  end.

Definition float (s : string) : result R := float_scan s 0 0 false false.

(** [notification_handler]: the value it assigns to [self._measurement],
    [None] when it assigns nothing. *)
Definition notification_handler (bytes : string) : result (option Measurement) :=
  response <- Bytes.decode bytes ;;
  match Re.match_ response with
  | Some (g0, g1) =>
      t <- float g0 ;;
      h <- float g1 ;;
      m <- Measurement_init t h ;;
      Ok (Some m)
  | None => Ok None
  end.

(** One notification reaching the device object.  An exception inside
    the callback is raised in the BLE library that called it, before the
    assignment: [self._measurement] keeps its value. *)
Definition deliver (_measurement : option Measurement) (bytes : string)
  : option Measurement :=
  match notification_handler bytes with
  | Ok (Some m) => Some m
  | Ok None => _measurement
  | Raise _ => _measurement
  end.

Definition deliver_all (_measurement : option Measurement) (l : list string)
  : option Measurement :=
  fold_left deliver l _measurement.

(** ** requestMeasurement *)

(** The notifications the BLE library hands to the callback while
    [requestMeasurement] is suspended: in the two awaits before the loop,
    in the sleep of each iteration, and in the await of [stop_notify].
    The BLE calls themselves are taken to succeed. *)
Record notifications : Type := mkNotifications {
  during_setup : list string;
  during_sleep : nat -> list string;
  during_stop : list string
}.

Definition truthy (_measurement : option Measurement) : bool :=
  match _measurement with
  | Some _ => true
  | None => false
  end.

(** The [while] loop, with fuel; the result is [self._measurement] and
    [i] when the loop is left. *)
Fixpoint wait_loop (fuel : nat) (env : notifications)
    (_measurement : option Measurement) (i : nat)
  : option (option Measurement * nat) :=
  match fuel with
  | O => None
  | S fuel' =>
      if negb (truthy _measurement) && (i <? 10)%nat then
        wait_loop fuel' env (deliver_all _measurement (during_sleep env i)) (S i)
      else Some (_measurement, i)
  end.

(** The value returned, with the number of sleeps made.  The call to
    [self.connect()] is not awaited in the source and does nothing. *)
Definition requestMeasurement (fuel : nat) (env : notifications)
    (_measurement : option Measurement)
  : option (option Measurement * nat) :=
  match wait_loop fuel env (deliver_all _measurement (during_setup env)) 0 with
  | Some (m, i) => Some (deliver_all m (during_stop env), i)
  | None => None
  end.

(** ** scan *)

Record BLEDevice : Type := mkBLEDevice {
  address : string;
  name : option string
}.

Record scan_state : Type := mkScan {
  found_devices : list string;
  stdout : list string;
  stderr : list nat
}.

(** [str.lower] on ASCII letters. *)
Definition lower_char (c : ascii) : ascii :=
  let n := N_of_ascii c in
  if ((65 <=? n) && (n <=? 90))%N then ascii_of_N (n + 32) else c.

Fixpoint lower (s : string) : string :=
  match s with
  | EmptyString => EmptyString
  | String c s' => String (lower_char c) (lower s')
  end.

Definition startswith (s p : string) : bool := String.prefix p s.

(** The truth value of [device.name]: neither [None] nor empty. *)
Definition named (d : BLEDevice) : bool :=
  match name d with
  | Some (String _ _) => true
  | _ => false
  end.

Definition name_text (d : BLEDevice) : string :=
  match name d with
  | Some n => n
  | None => "None"
  end.

Definition vendor (d : BLEDevice) : bool :=
  startswith (lower (address d)) "4c:65:a8:".

Definition report_line (d : BLEDevice) : string :=
  address d ++ "    " ++ name_text d.

(** The scanner callback; its second argument, the advertisement data,
    is not used.  [stdout] collects the lines printed; [stderr] collects
    the count shown in each progress message. *)
Definition callback (st : scan_state) (device : BLEDevice) : scan_state :=
  if existsb (String.eqb (address device)) (found_devices st) then st
  else
    let found := (found_devices st ++ [address device])%list in
    if named device && vendor device then
      mkScan found (stdout st ++ [report_line device])%list (stderr st)
    else if named device then
      mkScan found (stdout st) (stderr st ++ [List.length found])%list
    else mkScan found (stdout st) (stderr st).

Definition scan (events : list BLEDevice) : scan_state :=
  fold_left callback events (mkScan [] [] []).

(** ** Measurement.__str__ and class DeviceInfo *)

Definition nl : string := String (ascii_of_N 10) EmptyString.

(** [Measurement.__str__].  The digits that [format(x, ".1f")] prints
    depend on the binary value of the float, which the real-number model
    does not have: the formatting is the parameter [format_1f]. *)
Definition Measurement_str (format_1f : R -> string) (self : Measurement)
  : string :=
  String.concat nl
    [ "Temperature:    " ++ format_1f (temperatureC self) ++ " °C";
      "Dew point:      " ++ format_1f (dewPointC self) ++ " °C";
      "";
      "Temperature:    " ++ format_1f (temperatureF self) ++ " °F";
      "Dew point:      " ++ format_1f (dewPointF self) ++ " °F";
      "";
      "Rel. humidity:  " ++ format_1f (relHumidity self) ++ " %";
      "Abs. humidity:  " ++ format_1f (absHumidity self) ++ " g/m³";
      "Steam pressure: " ++ format_1f (steamPressure self) ++ " mbar" ].

Module DeviceInfo.

Record t : Type := mk {
  macAddress : string;
  name : string;
  manufacturer : string;
  model : string;
  hardware : string;
  firmware : string
}.

(** [DeviceInfo.__str__]. *)
Definition str (self : t) : string :=
  String.concat nl
    [ "MAC-Address:    " ++ macAddress self;
      "Devicename:     " ++ name self;
      "Manufacturer:   " ++ manufacturer self;
      "Model:          " ++ model self;
      "Hardware-Rev.:  " ++ hardware self;
      "Firmware-Rev.:  " ++ firmware self ].

Definition to_dict (self : t) : list (string * string) :=
  [ ("mac", macAddress self);
    ("name", name self);
    ("manufacturer", manufacturer self);
    ("model", model self);
    ("hardware", hardware self);
    ("firmware", firmware self) ].

End DeviceInfo.

(** ** The BLE client and the requests made through it *)

(** Everything [main] can catch: the exceptions of the calculator and the
    handler, [struct.error], the [AttributeError] of a method call on
    [None], and whatever the BLE library raises. *)
Inductive error : Type :=
| PyError (e : exn)
| StructError
| AttributeError
| BleakError (msg : string).

(** What the program does to the outside, in order. *)
Inductive action : Type :=
| Connect
| Read (uuid : string)
| StartNotify (handle : N)
| Write (uuid : string) (payload : list N)
| Sleep
| StopNotify (handle : N)
| Disconnect
| PrintException (e : error)
| PrintJson (data : list (string * (list (string * string) + N + list (string * R))))
| PrintText (text : string).

(** The BLE library as the program meets it: each awaited call either
    returns or raises, and notifications arrive as in [notifications]. *)
Record BleakClient : Type := mkClient {
  on_connect : option error;
  on_read : string -> error + string;
  on_start_notify : option error;
  on_write : option error;
  on_disconnect : option error;
  delivered : notifications
}.

Definition _CHARACTERISTIC_MANUFACTURER := "00002a29-0000-1000-8000-00805f9b34fb".
Definition _CHARACTERISTIC_NAME := "00002a00-0000-1000-8000-00805f9b34fb".
Definition _CHARACTERISTIC_MODEL := "00002a24-0000-1000-8000-00805f9b34fb".
Definition _CHARACTERISTIC_HARDWARE := "00002a27-0000-1000-8000-00805f9b34fb".
Definition _CHARACTERISTIC_FIRMWARE := "00002a26-0000-1000-8000-00805f9b34fb".
Definition _CHARACTERISTIC_BATTERY_LEVEL := "00002a19-0000-1000-8000-00805f9b34fb".
Definition _CHARACTERISTIC_MEASURE := "226cbb55-6476-4566-7562-66734470666d".

(** A computation that acts on the outside and then returns or raises. *)
Definition io (A : Type) : Type := list action * (error + A).

Definition io_ret {A : Type} (a : A) : io A := ([], inr a).

Definition io_raise {A : Type} (e : error) : io A := ([], inl e).

Definition io_bind {A B : Type} (m : io A) (k : A -> io B) : io B :=
  match m with
  | (t, inl e) => (t, inl e)
  | (t, inr a) => let (t', r) := k a in ((t ++ t')%list, r)
  end.

Notation "x <~ m ;; k" := (io_bind m (fun x => k))
  (at level 61, m at next level, right associativity).

Definition read_gatt_char (c : BleakClient) (uuid : string) : io string :=
  ([Read uuid], on_read c uuid).

Definition decoded (bytes : string) : io string :=
  match Bytes.decode bytes with
  | Ok s => io_ret s
  | Raise e => io_raise (PyError e)
  end.

(** [requestDeviceInfo]: the five reads, then the five decodes in the
    order of the constructor's arguments. *)
Definition requestDeviceInfo (c : BleakClient) (_mac : string)
  : io DeviceInfo.t :=
  name <~ read_gatt_char c _CHARACTERISTIC_NAME ;;
  manufacturer <~ read_gatt_char c _CHARACTERISTIC_MANUFACTURER ;;
  model <~ read_gatt_char c _CHARACTERISTIC_MODEL ;;
  hardware <~ read_gatt_char c _CHARACTERISTIC_HARDWARE ;;
  firmware <~ read_gatt_char c _CHARACTERISTIC_FIRMWARE ;;
  n <~ decoded name ;;
  ma <~ decoded manufacturer ;;
  mo <~ decoded model ;;
  h <~ decoded hardware ;;
  f <~ decoded firmware ;;
  io_ret (DeviceInfo.mk _mac n ma mo h f).

(** [struct.unpack('>B', b)[0]]: a buffer of exactly one byte. *)
Definition unpack_B (b : string) : io N :=
  match b with
  | String byte EmptyString => io_ret (N_of_ascii byte)
  | _ => io_raise StructError
  end.

Definition requestBatteryLevel (c : BleakClient) : io N :=
  batteryLevel <~ read_gatt_char c _CHARACTERISTIC_BATTERY_LEVEL ;;
  unpack_B batteryLevel.

(** [requestMeasurement] with its BLE calls: [start_notify] and the write
    can raise, an exception of [stop_notify] is swallowed. *)
Definition requestMeasurement_io (fuel : nat) (c : BleakClient)
    (_measurement : option Measurement)
  : option (io (option Measurement)) :=
  match on_start_notify c with
  | Some e => Some ([StartNotify 13], inl e)
  | None =>
      match on_write c with
      | Some e =>
          Some ([StartNotify 13; Write _CHARACTERISTIC_MEASURE [1; 0]%N], inl e)
      | None =>
          match requestMeasurement fuel (delivered c) _measurement with
          | None => None
          | Some (m, i) =>
              Some ([StartNotify 13; Write _CHARACTERISTIC_MEASURE [1; 0]%N]
                      ++ repeat Sleep i ++ [StopNotify 13], inr m)%list
          end
      end
  end.

(** ** main *)

Module Args.

Record t : Type := mk {
  mac : string;
  measure : bool;
  battery : bool;
  info : bool;
  json : bool
}.

End Args.

Definition json_value : Type :=
  (list (string * string) + N + list (string * R))%type.

(** The two accumulators of [main]: the dict [data] and the list
    [output]. *)
Definition collected : Type := (list (string * json_value) * list string)%type.

(** The state of the [try] block: what was done, what was collected, and
    the exception that ended the block, if any. *)
Definition progress : Type := (list action * collected * option error)%type.

Definition decimal (n : N) : string := NilZero.string_of_uint (N.to_uint n).

Definition info_step (c : BleakClient) (_mac : string) (acc : collected)
  : progress :=
  match requestDeviceInfo c _mac with
  | (t, inl e) => (t, acc, Some e)
  | (t, inr deviceInfo) =>
      (t,
       ((fst acc ++ [("info", inl (inl (DeviceInfo.to_dict deviceInfo)))])%list,
        (snd acc ++ [(DeviceInfo.str deviceInfo ++ nl)%string])%list),
       None)
  end.

Definition battery_step (c : BleakClient) (acc : collected) : progress :=
  match requestBatteryLevel c with
  | (t, inl e) => (t, acc, Some e)
  | (t, inr batteryLevel) =>
      (t,
       ((fst acc ++ [("battery", inl (inr batteryLevel))])%list,
        (snd acc ++ [("Battery-Level:  " ++ decimal batteryLevel ++ "%" ++ nl)%string])%list),
       None)
  end.

(** The measurement section: [measurement.to_dict()] on [None] raises
    [AttributeError] before anything is collected. *)
Definition measure_step (fuel : nat) (format_1f : R -> string)
    (c : BleakClient) (acc : collected)
  : option progress :=
  match requestMeasurement_io fuel c None with
  | None => None
  | Some (t, inl e) => Some (t, acc, Some e)
  | Some (t, inr None) => Some (t, acc, Some AttributeError)
  | Some (t, inr (Some measurement)) =>
      Some (t,
            ((fst acc ++ [("measurement", inr (to_dict measurement))])%list,
             (snd acc ++ [Measurement_str format_1f measurement])%list),
            None)
  end.

(** Run a section after what came before, unless an exception already
    ended the block. *)
Definition and_then (p : progress) (step : collected -> progress) : progress :=
  match p with
  | (t, acc, Some e) => (t, acc, Some e)
  | (t, acc, None) =>
      let '(t', acc', e') := step acc in ((t ++ t')%list, acc', e')
  end.

Definition and_then_opt (p : progress) (step : collected -> option progress)
  : option progress :=
  match p with
  | (t, acc, Some e) => Some (t, acc, Some e)
  | (t, acc, None) =>
      match step acc with
      | None => None
      | Some (t', acc', e') => Some ((t ++ t')%list, acc', e')
      end
  end.

(** The body of the [try] statement of [main]. *)
Definition try_block (fuel : nat) (format_1f : R -> string)
    (args : Args.t) (c : BleakClient)
  : option progress :=
  let connected : progress :=
    ([Connect], ([], []), on_connect c) in
  let after_info :=
    if Args.info args then and_then connected (info_step c (Args.mac args))
    else connected in
  let after_battery :=
    if Args.battery args then and_then after_info (battery_step c)
    else after_info in
  if Args.measure args
  then and_then_opt after_battery (measure_step fuel format_1f c)
  else Some after_battery.

Definition nonempty {A : Type} (l : list A) : bool :=
  match l with
  | [] => false
  | _ :: _ => true
  end.

(** What [main] prints after the [finally] clause. *)
Definition report (args : Args.t) (acc : collected) : list action :=
  if Args.json args && nonempty (fst acc) then [PrintJson (fst acc)]
  else if nonempty (snd acc) then [PrintText (String.concat nl (snd acc))]
  else [].

(** [main]: the actions, and the exception that leaves it, if any (only
    one raised by [disconnect] can). *)
Definition main (fuel : nat) (format_1f : R -> string)
    (args : Args.t) (c : BleakClient)
  : option (list action * option error) :=
  match try_block fuel format_1f args c with
  | None => None
  | Some (t, acc, e) =>
      let caught :=
        match e with
        | Some e => [PrintException e]
        | None => []
        end in
      match on_disconnect c with
      | Some e' => Some ((t ++ caught ++ [Disconnect])%list, Some e')
      | None =>
          Some ((t ++ caught ++ [Disconnect] ++ report args acc)%list, None)
      end
  end.

(** * Part II: the vocabulary of the statements *)

(** The intermediate quantities of [Measurement.__init__], named as in
    the source. *)

Definition z1_of (temperatureC : R) : R :=
  (7.45 * temperatureC) / (235 + temperatureC).

Definition es_of (z1 : R) : R := 6.1 * Py.math_exp (z1 * 2.3025851).

Definition e_of (es relHumidity : R) : R := es * relHumidity / 100.

(** The values the constructor quantizes, as functions of its two
    arguments.  They are what the source computes just before [round] and
    [int], and are only meaningful where the constructor does not raise. *)

Definition e_at (T h : R) : R := e_of (es_of (z1_of T)) h.

Definition abs_raw (T h : R) : R := (216.7 * e_at T h) / (273.15 + T).

Definition z3_at (T h : R) : R := 0.434292289 * ln (e_at T h / 6.1).

Definition dew_raw (T h : R) : R := (235 * z3_at T h) / (7.45 - z3_at T h).

(** The record the constructor builds when no step raises. *)
Definition built (T h : R) : Measurement :=
  let dp := IZR (Py.int (dew_raw T h * 10)) / 10 in
  mkMeasurement T h
    (IZR (Py.round (abs_raw T h * 10)) / 10)
    dp
    (IZR (Py.int (e_at T h * 10)) / 10)
    (T * 9 / 5 + 32)
    (dp * 9 / 5 + 32).

(** [x] is [y] cut to one decimal toward zero: ten times [x] is an
    integer on the zero side of ten times [y], less than one away. *)
Definition truncated_to_tenth (x y : R) : Prop :=
  exists n : Z, x = IZR n / 10 /\
    Rabs (IZR n) <= Rabs (y * 10) /\ Rabs (y * 10 - IZR n) < 1 /\
    0 <= IZR n * y.

(** [x] is a nearest multiple of one tenth to [y]. *)
Definition nearest_tenth (x y : R) : Prop :=
  exists n : Z, x = IZR n / 10 /\ Rabs (y * 10 - IZR n) <= 1 / 2.

(** The four places where [Measurement.__init__] can raise: the two
    divisions by an expression of the temperature, the logarithm, and the
    division by [7.45 - z3]. *)
Definition defined (T h : R) : Prop :=
  235 + T <> 0 /\ 273.15 + T <> 0 /\ 0 < e_at T h / 6.1 /\
  7.45 - z3_at T h <> 0.

(** The two constants of the source that stand for [ln 10] and
    [1 / ln 10]; their product is a little below one. *)
Definition LN10 : R := 2.3025851.
Definition LOG10E : R := 0.434292289.
Definition kappa : R := LOG10E * LN10.

(** [dewPointC] before truncation, as a function of [z3]. *)
Definition dew_of_z3 (z3 : R) : R := (235 * z3) / (7.45 - z3).

Definition tenth_int (x : R) : R := IZR (Py.int (x * 10)) / 10.

(** No notification of the call yields a measurement. *)
Definition silent (env : notifications) : Prop :=
  deliver_all None (during_setup env) = None /\
  (forall k, (k < 10)%nat -> deliver_all None (during_sleep env k) = None) /\
  deliver_all None (during_stop env) = None.

Fixpoint all_num (s : string) : bool :=
  match s with
  | EmptyString => true
  | String c s' => Re.num_char c && all_num s'
  end.

(** What the regular expression means: the response starts with ["T="],
    a non-empty run of class characters, [" H="] and another such run. *)
Definition pattern_matches (response g1 g2 : string) : Prop :=
  exists rest,
    response = "T=" ++ g1 ++ " H=" ++ g2 ++ rest /\
    g1 <> "" /\ all_num g1 = true /\ g2 <> "" /\ all_num g2 = true.

Definition starts_negative (bytes : string) : Prop :=
  exists rest, bytes = "T=-" ++ rest.

Definition every_payload (P : string -> Prop) (env : notifications) : Prop :=
  Forall P (during_setup env) /\
  (forall k, Forall P (during_sleep env k)) /\
  Forall P (during_stop env).

(** A schedule with one reading, delivered during the fourth sleep. *)
Definition one_reading : notifications :=
  mkNotifications []
    (fun k => if (k =? 3)%nat then ["T=20.0 H=50.0"] else []) [].

(** The rest of a string after a run of class characters: empty, or
    starting outside the class. *)
Definition stops (r : string) : Prop :=
  match r with
  | String c _ => Re.num_char c = false
  | EmptyString => True
  end.

(** A device the callback prints when it sees its address first. *)
Definition reportable (d : BLEDevice) : bool := named d && vendor d.

(** No payload of the list yields a measurement. *)
Definition quiet (l : list string) : Prop :=
  Forall (fun b => forall st, deliver st b = st) l.

(** The dots and the digits of a string. *)
Fixpoint dots (s : string) : nat :=
  match s with
  | EmptyString => 0
  | String c s' => (if Ascii.eqb c "." then 1 else 0) + dots s'
  end.

Fixpoint digits (s : string) : nat :=
  match s with
  | EmptyString => 0
  | String c s' => (if Ascii.eqb c "." then 0 else 1) + digits s'
  end.

(** A payload as the sensor sends it: the two groups, then anything
    that does not continue the second group. *)
Definition payload (g1 g2 rest : string) : string :=
  "T=" ++ g1 ++ " H=" ++ g2 ++ rest.

(** The five reads of [requestDeviceInfo], in order. *)
Definition info_reads : list action :=
  [ Read _CHARACTERISTIC_NAME;
    Read _CHARACTERISTIC_MANUFACTURER;
    Read _CHARACTERISTIC_MODEL;
    Read _CHARACTERISTIC_HARDWARE;
    Read _CHARACTERISTIC_FIRMWARE ].

(** The BLE actions of [requestMeasurement] with [i] sleeps. *)
Definition measure_actions (i : nat) : list action :=
  ([StartNotify 13; Write _CHARACTERISTIC_MEASURE [1; 0]%N]
     ++ repeat Sleep i ++ [StopNotify 13])%list.

Definition is_print (a : action) : bool :=
  match a with
  | PrintException _ | PrintJson _ | PrintText _ => true
  | _ => false
  end.

Definition is_text (a : action) : bool :=
  match a with
  | PrintText _ => true
  | _ => false
  end.

Definition is_disconnect (a : action) : bool :=
  match a with
  | Disconnect => true
  | _ => false
  end.

(** The BLE calls made inside the [try] block. *)
Definition is_ble (a : action) : bool :=
  match a with
  | Connect | Read _ | StartNotify _ | Write _ _ | Sleep | StopNotify _ => true
  | _ => false
  end.

(** The same arguments without the measurement flag. *)
Definition without_measure (args : Args.t) : Args.t :=
  Args.mk (Args.mac args) false (Args.battery args) (Args.info args)
    (Args.json args).

(** A sensor that answers every read with a name, the battery read with
    the single byte 87, and sends one reading during the fourth sleep. *)
Definition sensor : BleakClient :=
  mkClient None
    (fun uuid =>
       if String.eqb uuid _CHARACTERISTIC_BATTERY_LEVEL
       then inr (String (ascii_of_N 87) EmptyString)
       else inr "MJ_HT_V1")
    None None None one_reading.

(** A client on which nothing can be reached. *)
Definition unreachable : BleakClient :=
  mkClient (Some (BleakError "not found")) (fun _ => inl (BleakError "not connected"))
    (Some (BleakError "not connected")) (Some (BleakError "not connected"))
    None (mkNotifications [] (fun _ => []) []).

(** [data] and [output] have grown in step. *)
Definition paired (acc : collected) : Prop :=
  List.length (fst acc) = List.length (snd acc).

(** What holds of the [try] block at every point: it began with the
    connection, made BLE calls only, and collected in step. *)
Definition sound (p : progress) : Prop :=
  let '(t, acc, _) := p in
  (exists t', t = Connect :: t') /\ forallb is_ble t = true /\ paired acc.

(** The keys of the sections the flags ask for, in the order of [main]. *)
Definition requested (args : Args.t) : list string :=
  ((if Args.info args then ["info"] else [])
     ++ (if Args.battery args then ["battery"] else [])
     ++ (if Args.measure args then ["measurement"] else []))%list.

(** The floating tolerance of the statements on rounding: a millionth
    of the size of the value, and of one. *)
Definition tolerance (x : R) : R := 1 / 1000000 * (1 + Rabs x).

(** [x] is a multiple of one tenth nearest to [y], up to the tolerance
    on ten times [y]. *)
Definition nearest_within (x y : R) : Prop :=
  exists n : Z, x = IZR n / 10 /\
    Rabs (y * 10 - IZR n) <= 1 / 2 + tolerance (y * 10).

(** [x] is [y] cut to one decimal toward zero, up to the tolerance on
    ten times [y]: never beyond it, less than one short of it, and not
    of the other sign. *)
Definition truncated_within (x y : R) : Prop :=
  exists n : Z, x = IZR n / 10 /\
    Rabs (IZR n) <= Rabs (y * 10) + tolerance (y * 10) /\
    Rabs (y * 10 - IZR n) < 1 + tolerance (y * 10) /\
    0 <= IZR n * y.

(** What a section of [main] adds to [data] and to [output] when its
    request returns. *)
Definition section_entry (fuel : nat) (format_1f : R -> string)
    (args : Args.t) (c : BleakClient)
    (key : string) (v : json_value) (text : string) : Prop :=
  (key = "info" /\
   exists t d, requestDeviceInfo c (Args.mac args) = (t, inr d) /\
     v = inl (inl (DeviceInfo.to_dict d)) /\
     text = DeviceInfo.str d ++ nl) \/
  (key = "battery" /\
   exists t n, requestBatteryLevel c = (t, inr n) /\
     v = inl (inr n) /\
     text = "Battery-Level:  " ++ decimal n ++ "%" ++ nl) \/
  (key = "measurement" /\
   exists t m, requestMeasurement_io fuel c None = Some (t, inr (Some m)) /\
     v = inr (to_dict m) /\
     text = Measurement_str format_1f m).

(** The exception with which a section of [main] ends the [try] block:
    the one its request raises, or [AttributeError] when the measurement
    request returns [None]. *)
Definition section_error (fuel : nat) (args : Args.t) (c : BleakClient)
    (key : string) (e : error) : Prop :=
  (key = "info" /\
   exists t, requestDeviceInfo c (Args.mac args) = (t, inl e)) \/
  (key = "battery" /\
   exists t, requestBatteryLevel c = (t, inl e)) \/
  (key = "measurement" /\
   ((exists t, requestMeasurement_io fuel c None = Some (t, inl e)) \/
    (e = AttributeError /\
     exists t, requestMeasurement_io fuel c None = Some (t, inr None)))).

(** * Part III: lemmas and theorems *)

(** ** Facts about [int] and [round] *)

Section Quantize.

Lemma int_nonneg (x : R) : 0 <= x -> IZR (Py.int x) <= x < IZR (Py.int x) + 1.
Proof.
  intros Hx. unfold Py.int. destruct (Rle_dec 0 x); [|lra].
  apply Zfloor_bound.
Qed.

Lemma int_neg (x : R) : x < 0 -> x <= IZR (Py.int x) < x + 1.
Proof.
  intros Hx. unfold Py.int. destruct (Rle_dec 0 x); [lra|].
  pose proof (Zceil_bound x). lra.
Qed.

Lemma int_nonneg_sign (x : R) : 0 <= x -> 0 <= IZR (Py.int x).
Proof.
  intros Hx. unfold Py.int. destruct (Rle_dec 0 x); [|lra].
  apply IZR_le, Zfloor_lub. simpl. exact Hx.
Qed.

Lemma int_neg_sign (x : R) : x < 0 -> IZR (Py.int x) <= 0.
Proof.
  intros Hx. unfold Py.int. destruct (Rle_dec 0 x); [lra|].
  unfold Zceil. rewrite opp_IZR.
  assert (0 <= IZR (Zfloor (- x))); [|lra].
  apply IZR_le, Zfloor_lub. simpl. lra.
Qed.

Lemma int_toward_zero (x : R) :
  Rabs (IZR (Py.int x)) <= Rabs x /\ Rabs (x - IZR (Py.int x)) < 1 /\
  0 <= IZR (Py.int x) * x.
Proof.
  destruct (Rle_dec 0 x) as [Hx|Hx].
  - pose proof (int_nonneg x Hx). pose proof (int_nonneg_sign x Hx).
    repeat split.
    + rewrite !Rabs_pos_eq; lra.
    + rewrite Rabs_pos_eq; lra.
    + apply Rmult_le_pos; lra.
  - assert (Hn : x < 0) by lra.
    pose proof (int_neg x Hn). pose proof (int_neg_sign x Hn).
    repeat split.
    + rewrite !Rabs_left1; lra.
    + rewrite Rabs_left1; lra.
    + replace (IZR (Py.int x) * x) with ((- IZR (Py.int x)) * (- x)) by ring.
      apply Rmult_le_pos; lra.
Qed.


Lemma int_eq_nonneg (x : R) (n : Z) :
  0 <= x -> IZR n <= x < IZR n + 1 -> Py.int x = n.
Proof.
  intros Hx Hn. unfold Py.int. destruct (Rle_dec 0 x); [|lra].
  now apply Zfloor_eq.
Qed.

Lemma int_eq_neg (x : R) (n : Z) :
  x < 0 -> IZR n - 1 < x <= IZR n -> Py.int x = n.
Proof.
  intros Hx Hn. unfold Py.int. destruct (Rle_dec 0 x); [lra|].
  now apply Zceil_eq.
Qed.

Lemma round_nearest (x : R) : Rabs (x - IZR (Py.round x)) <= 1 / 2.
Proof.
  unfold Py.round. pose proof (Zfloor_bound x) as Hb.
  destruct (Rlt_dec (x - IZR (Zfloor x)) (1 / 2)).
  - rewrite Rabs_pos_eq; lra.
  - destruct (Rlt_dec (1 / 2) (x - IZR (Zfloor x))).
    + rewrite plus_IZR. rewrite Rabs_left1; lra.
    + destruct (Z.even (Zfloor x)).
      * rewrite Rabs_pos_eq; lra.
      * rewrite plus_IZR. rewrite Rabs_left1; lra.
Qed.

Lemma round_tie_even (x : R) :
  x - IZR (Zfloor x) = 1 / 2 -> Z.even (Py.round x) = true.
Proof.
  intros H. unfold Py.round. rewrite H.
  destruct (Rlt_dec (1 / 2) (1 / 2)) as [A|_]; [lra|].
  destruct (Z.even (Zfloor x)) eqn:E; [exact E|].
  rewrite Z.even_add, E. reflexivity.
Qed.

Lemma round_between (x : R) :
  (Zfloor x <= Py.round x <= Zfloor x + 1)%Z.
Proof.
  unfold Py.round.
  destruct (Rlt_dec (x - IZR (Zfloor x)) (1 / 2)); [lia|].
  destruct (Rlt_dec (1 / 2) (x - IZR (Zfloor x))); [lia|].
  destruct (Z.even (Zfloor x)); lia.
Qed.

Lemma round_le (x y : R) : x <= y -> (Py.round x <= Py.round y)%Z.
Proof.
  intros Hxy.
  pose proof (Zfloor_le x y Hxy) as Hf.
  destruct (Z.eq_dec (Zfloor x) (Zfloor y)) as [E|E].
  - unfold Py.round. rewrite E.
    destruct (Rlt_dec (x - IZR (Zfloor y)) (1 / 2)),
             (Rlt_dec (y - IZR (Zfloor y)) (1 / 2)),
             (Rlt_dec (1 / 2) (x - IZR (Zfloor y))),
             (Rlt_dec (1 / 2) (y - IZR (Zfloor y))),
             (Z.even (Zfloor y)); try lia; lra.
  - pose proof (round_between x). pose proof (round_between y). lia.
Qed.

End Quantize.

(** ** When the constructor returns, and what *)

Section Constructor.

Lemma Measurement_init_defined (T h : R) :
  defined T h -> Measurement_init T h = Ok (built T h).
Proof.
  intros (H1 & H2 & H3 & H4).
  unfold Measurement_init, Py.truediv, Py.math_log, bind.
  destruct (Req_dec_T (235 + T) 0) as [E|_]; [contradiction|].
  destruct (Req_dec_T (273.15 + T) 0) as [E|_]; [contradiction|].
  fold (z1_of T). fold (es_of (z1_of T)).
  fold (e_of (es_of (z1_of T)) h). fold (e_at T h).
  destruct (Rlt_dec 0 (e_at T h / 6.1)) as [_|N]; [|contradiction].
  fold (z3_at T h).
  destruct (Req_dec_T (7.45 - z3_at T h) 0) as [E|_]; [contradiction|].
  reflexivity.
Qed.

Lemma Measurement_init_inv (T h : R) (m : Measurement) :
  Measurement_init T h = Ok m -> defined T h /\ m = built T h.
Proof.
  unfold Measurement_init, Py.truediv, Py.math_log, bind.
  destruct (Req_dec_T (235 + T) 0) as [E|H1]; [discriminate|].
  destruct (Req_dec_T (273.15 + T) 0) as [E|H2]; [discriminate|].
  fold (z1_of T). fold (es_of (z1_of T)).
  fold (e_of (es_of (z1_of T)) h). fold (e_at T h).
  destruct (Rlt_dec 0 (e_at T h / 6.1)) as [H3|N]; [|discriminate].
  fold (z3_at T h).
  destruct (Req_dec_T (7.45 - z3_at T h) 0) as [E|H4]; [discriminate|].
  intros H. injection H as <-. split; [|reflexivity].
  unfold defined. auto.
Qed.

Lemma Measurement_init_raises (T h : R) :
  ~ defined T h -> raises (Measurement_init T h).
Proof.
  intros N. destruct (Measurement_init T h) as [m|e] eqn:E.
  - apply Measurement_init_inv in E. tauto.
  - now exists e.
Qed.

Lemma es_pos (z1 : R) : 0 < es_of z1.
Proof.
  unfold es_of, Py.math_exp.
  pose proof (exp_pos (z1 * 2.3025851)). lra.
Qed.

Lemma e_at_sign (T h : R) : 0 < e_at T h <-> 0 < h.
Proof.
  unfold e_at, e_of. pose proof (es_pos (z1_of T)) as Hes.
  split; intros H.
  - destruct (Rlt_dec 0 h) as [|N]; [assumption|].
    assert (es_of (z1_of T) * h <= 0); [|lra].
    replace (es_of (z1_of T) * h) with (- (es_of (z1_of T) * (- h))) by ring.
    assert (0 <= es_of (z1_of T) * - h); [|lra].
    apply Rmult_le_pos; lra.
  - assert (0 < es_of (z1_of T) * h) by (apply Rmult_lt_0_compat; lra).
    lra.
Qed.

Lemma z2_sign (T h : R) : 0 < e_at T h / 6.1 <-> 0 < h.
Proof.
  rewrite <- (e_at_sign T h). split; intros H; lra.
Qed.

End Constructor.

(** ** The Magnus formula over the reals *)

Section Magnus.

Lemma kappa_bounds : 0.99999 < kappa < 1 /\ 1 - kappa < 0.00000505.
Proof. unfold kappa, LOG10E, LN10. lra. Qed.

Lemma z3_closed (T h : R) :
  0 < h ->
  z3_at T h = LOG10E * (z1_of T * LN10 + ln (h / 100)).
Proof.
  intros Hh. unfold z3_at, e_at, e_of, es_of, Py.math_exp, LOG10E, LN10.
  replace (6.1 * exp (z1_of T * 2.3025851) * h / 100 / 6.1)
    with (exp (z1_of T * 2.3025851) * (h / 100)) by (field; lra).
  rewrite ln_mult; [|apply exp_pos|lra].
  now rewrite ln_exp.
Qed.

Lemma z3_saturated (T : R) : z3_at T 100 = kappa * z1_of T.
Proof.
  rewrite z3_closed by lra.
  replace (100 / 100) with 1 by lra. rewrite ln_1.
  unfold kappa. ring.
Qed.

Lemma z3_increasing (T h1 h2 : R) :
  0 < h1 -> h1 < h2 -> z3_at T h1 < z3_at T h2.
Proof.
  intros H1 H12. rewrite !z3_closed by lra.
  assert (ln (h1 / 100) < ln (h2 / 100)) by (apply ln_increasing; lra).
  unfold LOG10E. lra.
Qed.

Lemma z3_le_saturated (T h : R) :
  0 < h <= 100 -> z3_at T h <= kappa * z1_of T.
Proof.
  intros [H0 [Hlt|E]].
  - rewrite <- z3_saturated. left. now apply z3_increasing.
  - subst h. rewrite z3_saturated. lra.
Qed.

Lemma z1_closed (T : R) :
  235 + T <> 0 -> 7.45 - z1_of T = 7.45 * 235 / (235 + T).
Proof. intros H. unfold z1_of. now field. Qed.

Lemma z1_lt (T : R) : -235 < T -> z1_of T < 7.45.
Proof.
  intros H. assert (E := z1_closed T ltac:(lra)).
  assert (0 < 7.45 * 235 / (235 + T)); [|lra].
  apply Rdiv_lt_0_compat; lra.
Qed.

Lemma z1_sign (T : R) : -235 < T -> (0 <= T -> 0 <= z1_of T) /\ (T < 0 -> z1_of T < 0).
Proof.
  intros H. unfold z1_of. split; intros HT.
  - apply Rmult_le_pos; [lra|]. left. apply Rinv_0_lt_compat. lra.
  - replace (7.45 * T / (235 + T)) with (- ((7.45 * - T) / (235 + T))) by (field; lra).
    assert (0 < 7.45 * - T / (235 + T)); [|lra].
    apply Rdiv_lt_0_compat; lra.
Qed.

Lemma kappa_z1_lt (T : R) : -235 < T -> kappa * z1_of T < 7.45.
Proof.
  intros H. pose proof kappa_bounds as [[K1 K2] _].
  pose proof (z1_lt T H) as Hz. destruct (z1_sign T H) as [Hp Hn].
  destruct (Rle_dec 0 T) as [HT|HT].
  - specialize (Hp HT).
    assert (kappa * z1_of T <= 1 * z1_of T); [|lra].
    apply Rmult_le_compat_r; lra.
  - assert (Hz1 : z1_of T < 0) by (apply Hn; lra).
    assert (0 < kappa * - z1_of T) by (apply Rmult_lt_0_compat; lra).
    lra.
Qed.

Lemma z3_lt (T h : R) : -235 < T -> 0 < h <= 100 -> z3_at T h < 7.45.
Proof.
  intros HT Hh. pose proof (z3_le_saturated T h Hh).
  pose proof (kappa_z1_lt T HT). lra.
Qed.


Lemma dew_of_z3_increasing (a b : R) :
  a < b -> b < 7.45 -> dew_of_z3 a < dew_of_z3 b.
Proof.
  intros Hab Hb. unfold dew_of_z3.
  assert (E : 235 * b / (7.45 - b) - 235 * a / (7.45 - a)
              = 235 * 7.45 * (b - a) / ((7.45 - a) * (7.45 - b))).
  { field. lra. }
  assert (0 < 235 * 7.45 * (b - a) / ((7.45 - a) * (7.45 - b))); [|lra].
  apply Rdiv_lt_0_compat; [lra|]. apply Rmult_lt_0_compat; lra.
Qed.

Lemma dew_of_z3_le (a b : R) :
  a <= b -> b < 7.45 -> dew_of_z3 a <= dew_of_z3 b.
Proof.
  intros [Hab|E] Hb; [|subst; lra]. left. now apply dew_of_z3_increasing.
Qed.

Lemma dew_raw_z3 (T h : R) : dew_raw T h = dew_of_z3 (z3_at T h).
Proof. reflexivity. Qed.

(** The domain the sensor lives in: above the pole of [z1] and at most
    saturated.  There the constructor returns. *)
Lemma defined_in_range (T h : R) :
  -235 < T -> 0 < h <= 100 -> defined T h.
Proof.
  intros HT Hh. unfold defined. repeat split; try lra.
  - apply z2_sign. lra.
  - pose proof (z3_lt T h HT Hh). lra.
Qed.

(** At saturation the untruncated dew point is a rational function of
    the temperature. *)
Lemma dew_raw_saturated (T : R) :
  -235 < T ->
  dew_raw T 100 = 235 * kappa * T / (235 + (1 - kappa) * T).
Proof.
  intros HT. rewrite dew_raw_z3, z3_saturated. unfold dew_of_z3, z1_of.
  pose proof kappa_bounds as [[K1 K2] K3].
  assert (0 < 235 + (1 - kappa) * T).
  { destruct (Rle_dec 0 T).
    - assert (0 <= (1 - kappa) * T) by (apply Rmult_le_pos; lra). lra.
    - assert ((1 - kappa) * - T <= 1 * - T) by (apply Rmult_le_compat_r; lra).
      lra. }
  field. repeat split; lra.
Qed.

End Magnus.

(** ** Dew point against temperature *)

Section DewPoint.

Lemma div_lt_intro (a b c : R) : 0 < c -> a < b * c -> a / c < b.
Proof.
  intros Hc H. apply Rmult_lt_reg_r with c; [assumption|].
  unfold Rdiv. rewrite Rmult_assoc, Rinv_l by lra. lra.
Qed.

Lemma div_gt_intro (a b c : R) : 0 < c -> b * c < a -> b < a / c.
Proof.
  intros Hc H. apply Rmult_lt_reg_r with c; [assumption|].
  unfold Rdiv. rewrite Rmult_assoc, Rinv_l by lra. lra.
Qed.

Lemma div_le_intro (a b c : R) : 0 < c -> a <= b * c -> a / c <= b.
Proof.
  intros Hc H. apply Rmult_le_reg_r with c; [assumption|].
  unfold Rdiv. rewrite Rmult_assoc, Rinv_l by lra. lra.
Qed.

Lemma div_ge_intro (a b c : R) : 0 < c -> b * c <= a -> b <= a / c.
Proof.
  intros Hc H. apply Rmult_le_reg_r with c; [assumption|].
  unfold Rdiv. rewrite Rmult_assoc, Rinv_l by lra. lra.
Qed.

(** Saturated air at a temperature of zero or more: the untruncated dew
    point is at most the temperature, and less than 0.0004 below it up
    to 50 degrees. *)
Lemma saturated_nonneg (T : R) :
  0 <= T <= 50 ->
  0 <= dew_raw T 100 <= T /\ T - 0.0004 < dew_raw T 100.
Proof.
  intros [H0 H50]. rewrite dew_raw_saturated by lra.
  pose proof kappa_bounds as [[K1 K2] K3].
  assert (HkT : 0 <= (1 - kappa) * T) by (apply Rmult_le_pos; lra).
  assert (HkT' : (1 - kappa) * T <= 0.00000505 * 50).
  { apply Rmult_le_compat; lra. }
  assert (HD : 0 < 235 + (1 - kappa) * T) by lra.
  assert (HP : 0 <= (1 - kappa) * T * (235 + T)).
  { apply Rmult_le_pos; lra. }
  assert (HP' : (1 - kappa) * T * (235 + T) <= 0.00000505 * 50 * 285).
  { apply Rmult_le_compat; lra. }
  assert (HQ : 0 <= 235 * kappa * T).
  { apply Rmult_le_pos; lra. }
  repeat split.
  - apply div_ge_intro; lra.
  - apply div_le_intro; lra.
  - apply div_gt_intro; lra.
Qed.

(** Saturated air below zero, down to -20 degrees: the untruncated dew
    point is above the temperature, by less than 0.0001. *)
Lemma saturated_neg (T : R) :
  -20 <= T < 0 ->
  T < dew_raw T 100 < T + 0.0001 /\ dew_raw T 100 < 0.
Proof.
  intros [H0 H50]. rewrite dew_raw_saturated by lra.
  pose proof kappa_bounds as [[K1 K2] K3].
  assert (HkT : 0 < (1 - kappa) * - T) by (apply Rmult_lt_0_compat; lra).
  assert (HkT' : (1 - kappa) * - T <= 0.00000505 * 20).
  { apply Rmult_le_compat; lra. }
  assert (HD : 0 < 235 + (1 - kappa) * T) by lra.
  assert (HP : 0 < (1 - kappa) * - T * (235 + T)).
  { apply Rmult_lt_0_compat; lra. }
  assert (HS : 0 <= (T + 20) * (T + 215)) by (apply Rmult_le_pos; lra).
  assert (HM : 0 <= - T * (235 + T)) by (apply Rmult_le_pos; lra).
  assert (HP' : (1 - kappa) * (- T * (235 + T)) <= 0.00000505 * 4300).
  { apply Rmult_le_compat; lra. }
  assert (HQ : 0 < 235 * kappa * - T).
  { apply Rmult_lt_0_compat; lra. }
  repeat split.
  - apply div_gt_intro; lra.
  - apply div_lt_intro; lra.
  - apply div_lt_intro; lra.
Qed.

(** Below saturation the untruncated dew point is at most the saturated
    one. *)
Lemma dew_raw_le_saturated (T h : R) :
  -235 < T -> 0 < h <= 100 -> dew_raw T h <= dew_raw T 100.
Proof.
  intros HT Hh. rewrite !dew_raw_z3. apply dew_of_z3_le.
  - rewrite z3_saturated. now apply z3_le_saturated.
  - rewrite z3_saturated. now apply kappa_z1_lt.
Qed.

(** What truncation to one decimal does to a value. *)
Lemma tenth_int_nonneg (d : R) :
  0 <= d -> 0 <= tenth_int d <= d /\ d - 0.1 < tenth_int d.
Proof.
  intros Hd. unfold tenth_int.
  assert (H10 : 0 <= d * 10) by lra.
  pose proof (int_nonneg _ H10). pose proof (int_nonneg_sign _ H10). lra.
Qed.

Lemma tenth_int_neg (d : R) :
  d < 0 -> d <= tenth_int d <= 0 /\ tenth_int d < d + 0.1.
Proof.
  intros Hd. unfold tenth_int.
  assert (H10 : d * 10 < 0) by lra.
  pose proof (int_neg _ H10). pose proof (int_neg_sign _ H10). lra.
Qed.


Lemma dewPointC_built (T h : R) : dewPointC (built T h) = tenth_int (dew_raw T h).
Proof. reflexivity. Qed.


End DewPoint.

(** Inside the sensor's range the constructor returns [built]. *)
Ltac constructed :=
  apply Measurement_init_defined, defined_in_range; lra.

(** ** The constructor: rounding policy, failures, Fahrenheit fields *)

Section ConstructorClaims.

Lemma nearest_tenth_round (y : R) :
  nearest_tenth (IZR (Py.round (y * 10)) / 10) y.
Proof.
  exists (Py.round (y * 10)). split; [reflexivity|]. apply round_nearest.
Qed.

Lemma truncated_tenth_int (y : R) : truncated_to_tenth (tenth_int y) y.
Proof.
  exists (Py.int (y * 10)). split; [reflexivity|].
  destruct (int_toward_zero (y * 10)) as (H1 & H2 & H3).
  repeat split; try assumption. lra.
Qed.

Lemma tolerance_nonneg (x : R) : 0 <= tolerance x.
Proof. unfold tolerance. pose proof (Rabs_pos x). lra. Qed.

Lemma nearest_exact (x y : R) : nearest_tenth x y -> nearest_within x y.
Proof.
  intros (n & E & H). exists n. split; [exact E|].
  pose proof (tolerance_nonneg (y * 10)). lra.
Qed.

Lemma truncated_exact (x y : R) :
  truncated_to_tenth x y -> truncated_within x y.
Proof.
  intros (n & E & H1 & H2 & H3). exists n. split; [exact E|].
  pose proof (tolerance_nonneg (y * 10)). repeat split; lra.
Qed.

Lemma absolute_zero_raises :
  Measurement_init (-273.15) 50 = Raise ZeroDivisionError.
Proof.
  unfold Measurement_init, Py.truediv, bind.
  destruct (Req_dec_T (235 + -273.15) 0) as [E|_]; [lra|].
  destruct (Req_dec_T (273.15 + -273.15) 0) as [_|N]; [reflexivity|lra].
Qed.

End ConstructorClaims.

(** C1, as stated, fails at absolute zero: the temperature -273.15 is not
    -235 and the humidity 50 is positive, yet the constructor raises
    [ZeroDivisionError] in the division for [absHumidity] and sets no
    field. *)
Lemma C1_fails_at_absolute_zero :
  0 < 50 /\ -273.15 <> -235 /\
  Measurement_init (-273.15) 50 = Raise ZeroDivisionError /\
  forall m, Measurement_init (-273.15) 50 <> Ok m.
Proof.
  repeat split; try lra.
  - exact absolute_zero_raises.
  - intros m. rewrite absolute_zero_raises. discriminate.
Qed.

(** C1, amended: whenever the constructor returns a Measurement, the
    humidity was positive and the temperature was not -235, and
    [absHumidity] is a multiple of 0.1 nearest to
    [(216.7*e)/(273.15+temperatureC)], while [dewPointC] and
    [steamPressure] are [(235*z3)/(7.45-z3)] and [e] cut to one decimal
    toward zero and never rounded, where
    [e = 6.1 * exp(z1 * 2.3025851) * relHumidity / 100] and
    [z3 = 0.434292289 * ln(e / 6.1)]; each up to a floating tolerance of
    a millionth on the x10 value.  The four side conditions keep the
    arguments where binary64 follows exact arithmetic within that
    tolerance: a hundred-thousandth away from -273.15 and from
    [z3 = 7.45], where a difference cancels, and [exp(z1 * 2.3025851)]
    and [e / 6.1] at least 1e-300, above the subnormal numbers. *)
Theorem C1_rounding_policy (T h : R) (m : Measurement)
  (Hok : Measurement_init T h = Ok m)
  (Ha : 1 / 100000 <= Rabs (273.15 + T))
  (Hp : 1 / 100000 <= Rabs (7.45 - z3_at T h))
  (Hu : 1e-300 <= exp (z1_of T * 2.3025851))
  (Hv : 1e-300 <= e_at T h / 6.1) :
  0 < h /\ T <> -235 /\
  e_at T h = 6.1 * exp ((7.45 * T) / (235 + T) * 2.3025851) * h / 100 /\
  z3_at T h = 0.434292289 * ln (e_at T h / 6.1) /\
  nearest_within (absHumidity m) ((216.7 * e_at T h) / (273.15 + T)) /\
  truncated_within (dewPointC m)
    ((235 * z3_at T h) / (7.45 - z3_at T h)) /\
  truncated_within (steamPressure m) (e_at T h).
Proof.
  apply Measurement_init_inv in Hok as [(H1 & _ & H3 & _) ->].
  apply z2_sign in H3.
  split; [exact H3|]. split; [lra|].
  split; [reflexivity|]. split; [reflexivity|]. split; [|split].
  - apply nearest_exact, nearest_tenth_round.
  - apply truncated_exact, (truncated_tenth_int (dew_raw T h)).
  - apply truncated_exact, (truncated_tenth_int (e_at T h)).
Qed.

Lemma C1_rounding_policy_witness :
  0 < 100 /\ 25 <> -235 /\
  e_at 25 100
  = 6.1 * exp ((7.45 * 25) / (235 + 25) * 2.3025851) * 100 / 100 /\
  z3_at 25 100 = 0.434292289 * ln (e_at 25 100 / 6.1) /\
  nearest_within (absHumidity (built 25 100))
    ((216.7 * e_at 25 100) / (273.15 + 25)) /\
  truncated_within (dewPointC (built 25 100))
    ((235 * z3_at 25 100) / (7.45 - z3_at 25 100)) /\
  truncated_within (steamPressure (built 25 100)) (e_at 25 100).
Proof.
  assert (Hx : 1 <= exp (z1_of 25 * 2.3025851)).
  { pose proof (exp_ineq1_le (z1_of 25 * 2.3025851)) as H.
    unfold z1_of in *. lra. }
  apply (C1_rounding_policy 25 100).
  - constructed.
  - rewrite Rabs_pos_eq; lra.
  - rewrite z3_saturated.
    pose proof (kappa_z1_lt 25 ltac:(lra)) as Hk.
    pose proof kappa_bounds as [[K1 K2] _].
    assert (Hz : kappa * z1_of 25 <= 1).
    { unfold z1_of. replace (7.45 * 25 / (235 + 25)) with (186.25 / 260) by lra.
      assert (kappa * (186.25 / 260) <= 1 * (186.25 / 260)); [|lra].
      apply Rmult_le_compat_r; lra. }
    rewrite Rabs_pos_eq; lra.
  - lra.
  - unfold e_at, e_of, es_of, Py.math_exp. lra.
Defined.

(** C2: for a relative humidity of zero or less, and likewise for the
    temperature -235, the constructor raises and produces no Measurement;
    at -235 it is the division for [z1] that raises, with
    [ZeroDivisionError]. *)
Theorem C2_domain_error (T h : R) (H : h <= 0 \/ T = -235) :
  raises (Measurement_init T h) /\
  (forall m, Measurement_init T h <> Ok m) /\
  (T = -235 -> Measurement_init T h = Raise ZeroDivisionError).
Proof.
  assert (N : ~ defined T h).
  { unfold defined. intros (H1 & _ & H3 & _). destruct H as [H|H].
    - apply z2_sign in H3. lra.
    - subst T. apply H1. lra. }
  split; [now apply Measurement_init_raises|]. split.
  - intros m E. apply Measurement_init_inv in E. tauto.
  - intros ->. unfold Measurement_init, Py.truediv, bind.
    destruct (Req_dec_T (235 + -235) 0) as [_|N1]; [reflexivity|].
    exfalso. apply N1. lra.
Qed.

Lemma C2_domain_error_witness :
  raises (Measurement_init 20 0) /\
  (forall m, Measurement_init 20 0 <> Ok m) /\
  (20 = -235 -> Measurement_init 20 0 = Raise ZeroDivisionError).
Proof.
  apply (C2_domain_error 20 0). left. lra.
Defined.

(** C5: in every Measurement the constructor returns, [temperatureF] is
    [temperatureC * 9/5 + 32] and [dewPointF] is [dewPointC * 9/5 + 32]. *)
Theorem C5_fahrenheit (T h : R) (m : Measurement)
  (H : Measurement_init T h = Ok m) :
  temperatureC m = T /\
  temperatureF m = temperatureC m * 9 / 5 + 32 /\
  dewPointF m = dewPointC m * 9 / 5 + 32.
Proof.
  apply Measurement_init_inv in H. destruct H as [_ ->].
  repeat split.
Qed.

Lemma C5_fahrenheit_witness :
  temperatureC (built 25 50) = 25 /\
  temperatureF (built 25 50) = temperatureC (built 25 50) * 9 / 5 + 32 /\
  dewPointF (built 25 50) = dewPointC (built 25 50) * 9 / 5 + 32.
Proof.
  apply (C5_fahrenheit 25 50).
  constructed.
Defined.

(** ** Monotonicity in the humidity *)

Section Monotone.




Lemma dew_raw_increasing (T h1 h2 : R) :
  -235 < T -> 0 < h1 -> h1 < h2 -> h2 <= 100 ->
  dew_raw T h1 < dew_raw T h2.
Proof.
  intros HT H1 H12 H2. rewrite !dew_raw_z3. apply dew_of_z3_increasing.
  - now apply z3_increasing.
  - apply z3_lt; lra.
Qed.





End Monotone.




(** The two side conditions of the monotonicity are needed.  Below
    -273.15 the divisor of [absHumidity] is negative, and across
    [z3 = 7.45] the divisor of [dewPointC] changes sign: there the larger
    humidity gives the smaller field. *)
Example abs_humidity_falls_below_absolute_zero :
  Measurement_init (-300) 100 = Ok (built (-300) 100) /\
  Measurement_init (-300) 200 = Ok (built (-300) 200) /\
  absHumidity (built (-300) 200) < absHumidity (built (-300) 100).
Proof.
  pose proof kappa_bounds as [[K1 K2] _].
  assert (Hz1 : z1_of (-300) = 7.45 * 300 / 65) by (unfold z1_of; lra).
  assert (Hk : 34 < kappa * z1_of (-300)).
  { rewrite Hz1.
    assert (0.99999 * (7.45 * 300 / 65) <= kappa * (7.45 * 300 / 65));
      [|lra].
    apply Rmult_le_compat_r; lra. }
  assert (D1 : defined (-300) 100).
  { unfold defined. repeat split; try lra.
    - apply z2_sign. lra.
    - rewrite z3_saturated. lra. }
  assert (D2 : defined (-300) 200).
  { unfold defined. repeat split; try lra.
    - apply z2_sign. lra.
    - pose proof (z3_increasing (-300) 100 200 ltac:(lra) ltac:(lra)) as H.
      rewrite z3_saturated in H. lra. }
  split; [now apply Measurement_init_defined|].
  split; [now apply Measurement_init_defined|].
  simpl.
  pose proof (round_nearest (abs_raw (-300) 100 * 10)) as R1.
  pose proof (round_nearest (abs_raw (-300) 200 * 10)) as R2.
  assert (Hx : 1 <= exp (z1_of (-300) * 2.3025851)).
  { pose proof (exp_ineq1_le (z1_of (-300) * 2.3025851)). rewrite Hz1 in *.
    lra. }
  assert (Hd : abs_raw (-300) 200 * 10 + 1 < abs_raw (-300) 100 * 10).
  { unfold abs_raw, e_at, e_of, es_of, Py.math_exp. lra. }
  unfold Rabs in R1, R2.
  destruct (Rcase_abs _) in R1; destruct (Rcase_abs _) in R2; lra.
Qed.

(** At 0 degrees the humidities that put [z3] at 7 and at 8 give dew
    points of 3655.5 and -3418.1. *)
Example dew_point_falls_across_the_pole :
  let h1 := 100 * exp (7 / LOG10E) in
  let h2 := 100 * exp (8 / LOG10E) in
  0 < h1 < h2 /\
  Measurement_init 0 h1 = Ok (built 0 h1) /\
  Measurement_init 0 h2 = Ok (built 0 h2) /\
  z3_at 0 h1 = 7 /\ z3_at 0 h2 = 8 /\
  dewPointC (built 0 h2) < dewPointC (built 0 h1).
Proof.
  intros h1 h2.
  assert (L : LOG10E <> 0) by (unfold LOG10E; lra).
  assert (P1 : 0 < h1) by (unfold h1; pose proof (exp_pos (7 / LOG10E)); lra).
  assert (P2 : 0 < h2) by (unfold h2; pose proof (exp_pos (8 / LOG10E)); lra).
  assert (Z : forall a, z3_at 0 (100 * exp (a / LOG10E)) = a).
  { intros a. rewrite z3_closed by (pose proof (exp_pos (a / LOG10E)); lra).
    replace (100 * exp (a / LOG10E) / 100) with (exp (a / LOG10E)) by lra.
    rewrite ln_exp. unfold z1_of.
    replace (7.45 * 0 / (235 + 0)) with 0 by lra. field. exact L. }
  assert (Z1 : z3_at 0 h1 = 7) by apply Z.
  assert (Z2 : z3_at 0 h2 = 8) by apply Z.
  assert (H12 : h1 < h2).
  { unfold h1, h2.
    assert (exp (7 / LOG10E) < exp (8 / LOG10E)); [|lra].
    apply exp_increasing. unfold Rdiv. apply Rmult_lt_compat_r; [|lra].
    apply Rinv_0_lt_compat. unfold LOG10E. lra. }
  split; [lra|].
  assert (D : forall h, 0 < h -> z3_at 0 h <> 7.45 -> defined 0 h).
  { intros h Hh Hz. unfold defined. repeat split; try lra.
    now apply z2_sign. }
  split; [apply Measurement_init_defined, D; [exact P1|rewrite Z1; lra]|].
  split; [apply Measurement_init_defined, D; [exact P2|rewrite Z2; lra]|].
  split; [exact Z1|]. split; [exact Z2|].
  rewrite !dewPointC_built. unfold tenth_int, dew_raw. rewrite Z1, Z2.
  rewrite (int_eq_nonneg (235 * 7 / (7.45 - 7) * 10) 36555) by lra.
  rewrite (int_eq_neg (235 * 8 / (7.45 - 8) * 10) (-34181)) by lra.
  lra.
Qed.

(** ** Dew point and temperature *)

Section Saturation.

Lemma dew_minus10_saturated : dewPointC (built (-10) 100) = -9.9.
Proof.
  rewrite dewPointC_built. unfold tenth_int.
  rewrite dew_raw_saturated by lra.
  rewrite (int_eq_neg _ (-99)); unfold kappa, LOG10E, LN10; lra.
Qed.

Lemma dew_20_0001_saturated : dewPointC (built 20.0001 100) = 19.9.
Proof.
  rewrite dewPointC_built. unfold tenth_int.
  rewrite dew_raw_saturated by lra.
  rewrite (int_eq_nonneg _ 199); unfold kappa, LOG10E, LN10; lra.
Qed.

End Saturation.

(** C4, as stated, fails: at -10 degrees and 100 percent the constructor
    returns a dew point of -9.9, a tenth of a degree above the
    temperature, which no floating tolerance covers. *)
Lemma C4_dew_above_temperature :
  -20 <= -10 <= 50 /\ 0 < 100 <= 100 /\
  exists m, Measurement_init (-10) 100 = Ok m /\
    dewPointC m = -9.9 /\ ~ dewPointC m <= -10 + 0.09.
Proof.
  split; [lra|]. split; [lra|]. exists (built (-10) 100).
  split; [constructed|].
  rewrite dew_minus10_saturated. split; lra.
Qed.

(** C4, amended: for a temperature from -20 to 50 and a humidity in
    (0, 100], a Measurement that the constructor returns has a [dewPointC]
    that is at most the temperature when the temperature is zero or more,
    and in any case less than the temperature plus 0.1001. *)
Theorem C4_dew_le_temperature (T h : R) (m : Measurement)
  (HT : -20 <= T <= 50) (Hh : 0 < h <= 100)
  (Hok : Measurement_init T h = Ok m) :
  (0 <= T -> dewPointC m <= T) /\
  dewPointC m < T + 0.1001.
Proof.
  apply Measurement_init_inv in Hok as [_ ->].
  rewrite dewPointC_built.
  pose proof (dew_raw_le_saturated T h ltac:(lra) Hh) as Hle.
  destruct (Rle_dec 0 T) as [H0|H0].
  - destruct (saturated_nonneg T ltac:(lra)) as [[_ Hs] _].
    assert (tenth_int (dew_raw T h) <= T).
    { destruct (Rle_dec 0 (dew_raw T h)) as [Hd|Hd].
      - pose proof (tenth_int_nonneg _ Hd). lra.
      - pose proof (tenth_int_neg (dew_raw T h) ltac:(lra)). lra. }
    split; [intros _; assumption|lra].
  - destruct (saturated_neg T ltac:(lra)) as [[_ Hs] Hn].
    pose proof (tenth_int_neg (dew_raw T h) ltac:(lra)).
    split; [intros; lra|lra].
Qed.

Lemma C4_dew_le_temperature_witness :
  (0 <= 25 -> dewPointC (built 25 50) <= 25) /\
  dewPointC (built 25 50) < 25 + 0.1001.
Proof.
  apply (C4_dew_le_temperature 25 50); try lra. constructed.
Defined.

(** C6, as stated, fails: at 20.0001 degrees and 100 percent the
    constructor returns a dew point of 19.9, more than the 0.1 truncation
    grain away from the temperature. *)
Lemma C6_saturated_off_grain :
  -20 <= 20.0001 <= 50 /\
  exists m, Measurement_init 20.0001 100 = Ok m /\
    dewPointC m = 19.9 /\ ~ Rabs (dewPointC m - 20.0001) <= 0.1.
Proof.
  split; [lra|]. exists (built 20.0001 100).
  split; [constructed|].
  rewrite dew_20_0001_saturated. split; [reflexivity|].
  rewrite Rabs_left1; lra.
Qed.

(** C6, amended: for a temperature from -20 to 50 and a humidity of 100
    the constructor returns a Measurement whose [dewPointC] differs from
    the temperature by less than 0.1004; it is at most the temperature
    when that is zero or more, and above it when it is negative. *)
Theorem C6_dew_at_saturation (T : R) (HT : -20 <= T <= 50) :
  exists m, Measurement_init T 100 = Ok m /\
    Rabs (dewPointC m - T) < 0.1004 /\
    (0 <= T -> T - 0.1004 < dewPointC m <= T) /\
    (T < 0 -> T < dewPointC m < T + 0.1001).
Proof.
  exists (built T 100).
  split; [constructed|].
  rewrite dewPointC_built.
  destruct (Rle_dec 0 T) as [H0|H0].
  - destruct (saturated_nonneg T ltac:(lra)) as [[Hd Hs] Hl].
    pose proof (tenth_int_nonneg _ Hd).
    split; [apply Rabs_def1; lra|]. split; intros; lra.
  - destruct (saturated_neg T ltac:(lra)) as [[Hl Hs] Hn].
    pose proof (tenth_int_neg _ Hn).
    split; [apply Rabs_def1; lra|]. split; intros; lra.
Qed.

Lemma C6_dew_at_saturation_witness :
  exists m, Measurement_init 20 100 = Ok m /\
    Rabs (dewPointC m - 20) < 0.1004 /\
    (0 <= 20 -> 20 - 0.1004 < dewPointC m <= 20) /\
    (20 < 0 -> 20 < dewPointC m < 20 + 0.1001).
Proof.
  apply (C6_dew_at_saturation 20). lra.
Defined.

(** ** to_dict *)

(** C8: [to_dict] returns exactly the seven keys [temperatureC],
    [temperatureF], [relHumidity], [absHumidity], [dewPointC], [dewPointF]
    and [steamPressure], each once and each mapped to the field of the same
    name; any other key is absent. *)
Theorem C8_to_dict (self : Measurement) :
  keys (to_dict self)
    = ["temperatureC"; "temperatureF"; "relHumidity"; "absHumidity";
       "dewPointC"; "dewPointF"; "steamPressure"] /\
  NoDup (keys (to_dict self)) /\
  get (to_dict self) "temperatureC" = Some (temperatureC self) /\
  get (to_dict self) "temperatureF" = Some (temperatureF self) /\
  get (to_dict self) "relHumidity" = Some (relHumidity self) /\
  get (to_dict self) "absHumidity" = Some (absHumidity self) /\
  get (to_dict self) "dewPointC" = Some (dewPointC self) /\
  get (to_dict self) "dewPointF" = Some (dewPointF self) /\
  get (to_dict self) "steamPressure" = Some (steamPressure self) /\
  forall k, ~ In k (keys (to_dict self)) -> get (to_dict self) k = None.
Proof.
  split; [reflexivity|]. split.
  - unfold keys, to_dict. simpl.
    repeat (constructor; [simpl; intuition discriminate|]). constructor.
  - repeat (split; [reflexivity|]).
    intros k Hk. unfold keys, to_dict in *. simpl in *.
    repeat match goal with
    | |- context [String.eqb k ?s] =>
        destruct (String.eqb_spec k s) as [->|_]; [exfalso; apply Hk; tauto|]
    end.
    reflexivity.
Qed.

(** ** The wait loop *)

Section WaitLoop.

Variable env : notifications.

Lemma deliver_some (m : Measurement) (bytes : string) :
  exists m', deliver (Some m) bytes = Some m'.
Proof.
  unfold deliver. destruct (notification_handler bytes) as [[m'|]|e]; eauto.
Qed.

Lemma deliver_all_some (l : list string) (m : Measurement) :
  exists m', deliver_all (Some m) l = Some m'.
Proof.
  revert m. induction l as [|b l IH]; intros m; simpl.
  - eauto.
  - destruct (deliver_some m b) as [m' ->]. apply IH.
Qed.

Lemma wait_loop_some (fuel : nat) (m : Measurement) (i : nat) :
  wait_loop (S fuel) env (Some m) i = Some (Some m, i).
Proof. reflexivity. Qed.

Lemma wait_loop_terminates (fuel : nat) :
  forall st i, (i <= 10)%nat -> (10 - i < fuel)%nat ->
  exists m i', wait_loop fuel env st i = Some (m, i') /\ (i <= i' <= 10)%nat.
Proof.
  induction fuel as [|fuel IH]; intros st i Hi Hf; [lia|].
  simpl. destruct st as [m|]; simpl.
  - exists (Some m), i. split; [reflexivity|lia].
  - destruct (Nat.ltb_spec i 10) as [Hlt|Hge].
    + destruct (IH (deliver_all None (during_sleep env i)) (S i))
        as (m & i' & E & Hb); try lia.
      exists m, i'. split; [exact E|lia].
    + exists None, i. split; [reflexivity|lia].
Qed.

Lemma wait_loop_silent (fuel : nat) :
  (forall k, (k < 10)%nat -> deliver_all None (during_sleep env k) = None) ->
  forall i, (i <= 10)%nat -> (10 - i < fuel)%nat ->
  wait_loop fuel env None i = Some (None, 10%nat).
Proof.
  intros Hq. induction fuel as [|fuel IH]; intros i Hi Hf; [lia|].
  simpl. destruct (Nat.ltb_spec i 10) as [Hlt|Hge].
  - rewrite Hq by exact Hlt. apply IH; lia.
  - replace i with 10%nat by lia. reflexivity.
Qed.

Lemma wait_loop_arrival (k : nat) (m : Measurement) :
  (k < 10)%nat ->
  deliver_all None (during_sleep env k) = Some m ->
  forall fuel i, (i <= k)%nat ->
  (forall j, (i <= j < k)%nat -> deliver_all None (during_sleep env j) = None) ->
  (10 - i < fuel)%nat ->
  wait_loop fuel env None i = Some (Some m, S k).
Proof.
  intros Hk Hm. induction fuel as [|fuel IH]; intros i Hi Hq Hf; [lia|].
  simpl. destruct (Nat.ltb_spec i 10) as [_|Hge]; [|lia].
  destruct (Nat.eq_dec i k) as [->|Hne].
  - rewrite Hm. destruct fuel as [|fuel']; [lia|]. reflexivity.
  - rewrite Hq by lia. apply IH; try lia. intros j Hj. apply Hq. lia.
Qed.

Lemma requestMeasurement_returns (fuel : nat) (st : option Measurement) :
  (10 < fuel)%nat ->
  exists r i, requestMeasurement fuel env st = Some (r, i) /\ (i <= 10)%nat.
Proof.
  intros Hf. unfold requestMeasurement.
  destruct (wait_loop_terminates fuel
              (deliver_all st (during_setup env)) 0) as (m & i & E & Hb);
    try lia.
  rewrite E. exists (deliver_all m (during_stop env)), i.
  split; [reflexivity|lia].
Qed.

Lemma requestMeasurement_silent (fuel : nat) :
  (10 < fuel)%nat -> silent env ->
  requestMeasurement fuel env None = Some (None, 10%nat).
Proof.
  intros Hf (Hs & Hq & Hl). unfold requestMeasurement.
  rewrite Hs, (wait_loop_silent fuel Hq 0) by lia.
  now rewrite Hl.
Qed.

End WaitLoop.



(** ** The pattern of the handler *)

Section Pattern.

Lemma span_spec (s : string) :
  s = fst (Re.span s) ++ snd (Re.span s) /\
  all_num (fst (Re.span s)) = true /\ stops (snd (Re.span s)).
Proof.
  induction s as [|c s IH]; simpl.
  - auto.
  - destruct (Re.num_char c) eqn:E.
    + destruct (Re.span s) as [g r]. simpl in *.
      destruct IH as (-> & Hg & Hr). rewrite E. auto.
    + simpl. auto.
Qed.

Lemma span_app (g r : string) :
  all_num g = true -> stops r -> Re.span (g ++ r) = (g, r).
Proof.
  intros Hg Hr. induction g as [|c g IH]; simpl in *.
  - destruct r as [|c r]; [reflexivity|]. simpl in *. now rewrite Hr.
  - apply andb_prop in Hg as [Hc Hg]. rewrite Hc, (IH Hg). reflexivity.
Qed.

Lemma span_head (c : ascii) (s : string) :
  Re.num_char c = true -> exists g r, Re.span (String c s) = (String c g, r).
Proof.
  intros Hc. simpl. rewrite Hc. destruct (Re.span s) as [g r]. eauto.
Qed.

Lemma strip_spec (p s r : string) : Re.strip p s = Some r <-> s = p ++ r.
Proof.
  revert s. induction p as [|a p IH]; intros s; simpl.
  - split; congruence.
  - destruct s as [|b s].
    + split; discriminate.
    + destruct (Ascii.eqb_spec a b) as [->|N].
      * rewrite IH. split; congruence.
      * split; [discriminate|]. intros H. congruence.
Qed.

Lemma match_sound (response g1 g2 : string) :
  Re.match_ response = Some (g1, g2) -> pattern_matches response g1 g2.
Proof.
  unfold Re.match_.
  destruct (Re.strip "T=" response) as [r1|] eqn:E1; [|discriminate].
  apply strip_spec in E1.
  destruct (span_spec r1) as (S1 & A1 & _).
  destruct (Re.span r1) as [h1 r2]. simpl in S1, A1.
  destruct h1 as [|c1 h1]; [discriminate|].
  destruct (Re.strip " H=" r2) as [r3|] eqn:E2; [|discriminate].
  apply strip_spec in E2.
  destruct (span_spec r3) as (S2 & A2 & _).
  destruct (Re.span r3) as [h2 rest]. simpl in S2, A2.
  destruct h2 as [|c2 h2]; [discriminate|].
  intros H. injection H as <- <-.
  exists rest. subst response r1 r2 r3.
  repeat split; try assumption; discriminate.
Qed.

Lemma match_complete (response g1 g2 : string) :
  pattern_matches response g1 g2 ->
  exists g2', Re.match_ response = Some (g1, g2').
Proof.
  intros (rest & -> & N1 & A1 & N2 & A2). unfold Re.match_.
  assert (E1 : Re.strip "T=" ("T=" ++ g1 ++ " H=" ++ g2 ++ rest)
               = Some (g1 ++ " H=" ++ g2 ++ rest)) by (now apply strip_spec).
  rewrite E1. rewrite (span_app g1 (" H=" ++ g2 ++ rest) A1) by reflexivity.
  destruct g1 as [|c1 g1]; [congruence|].
  assert (E2 : Re.strip " H=" (" H=" ++ g2 ++ rest) = Some (g2 ++ rest))
    by (now apply strip_spec).
  rewrite E2. destruct g2 as [|c2 g2]; [congruence|].
  simpl in A2. apply andb_prop in A2 as [Hc2 _].
  destruct (span_head c2 (g2 ++ rest) Hc2) as (g & r & E).
  change (String c2 g2 ++ rest) with (String c2 (g2 ++ rest)).
  rewrite E. eauto.
Qed.

Lemma match_none_iff (response : string) :
  Re.match_ response = None <->
  ~ exists g1 g2, pattern_matches response g1 g2.
Proof.
  split.
  - intros E (g1 & g2 & H). apply match_complete in H as [g2' H].
    congruence.
  - intros N. destruct (Re.match_ response) as [[g1 g2]|] eqn:E;
      [|reflexivity].
    exfalso. apply N. exists g1, g2. now apply match_sound.
Qed.

Lemma decode_inv (bytes response : string) :
  Bytes.decode bytes = Ok response -> response = bytes.
Proof.
  unfold Bytes.decode. destruct (Bytes.well_formed [] bytes); congruence.
Qed.

Lemma deliver_unmatched (st : option Measurement) (bytes : string) :
  Re.match_ bytes = None -> deliver st bytes = st.
Proof.
  intros H. unfold deliver, notification_handler, Bytes.decode, bind.
  destruct (Bytes.well_formed [] bytes); [|reflexivity].
  now rewrite H.
Qed.

Lemma negative_unmatched (rest : string) : Re.match_ ("T=-" ++ rest) = None.
Proof. reflexivity. Qed.

Lemma deliver_all_unmatched (st : option Measurement) (l : list string) :
  Forall (fun b => Re.match_ b = None) l -> deliver_all st l = st.
Proof.
  induction 1 as [|b l Hb _ IH]; simpl; [reflexivity|].
  now rewrite deliver_unmatched.
Qed.

End Pattern.

(** C10: a payload whose decoded text does not match the pattern leaves
    the stored measurement as it was; a payload that starts with ["T=-"]
    never matches, so it never produces a Measurement, and a call that
    receives only such payloads returns None after its ten polls. *)
Theorem C10_unmatched_payload :
  (forall st bytes,
      (forall response, Bytes.decode bytes = Ok response ->
                        ~ exists g1 g2, pattern_matches response g1 g2) ->
      deliver st bytes = st) /\
  (forall bytes st,
      starts_negative bytes ->
      (~ exists g1 g2, pattern_matches bytes g1 g2) /\
      (forall m, notification_handler bytes <> Ok (Some m)) /\
      deliver st bytes = st) /\
  (forall env fuel,
      (10 < fuel)%nat -> every_payload starts_negative env ->
      requestMeasurement fuel env None = Some (None, 10%nat)).
Proof.
  split; [|split].
  - intros st bytes H. unfold deliver, notification_handler, bind.
    destruct (Bytes.decode bytes) as [response|e] eqn:E; [|reflexivity].
    specialize (H response eq_refl). apply match_none_iff in H.
    now rewrite H.
  - intros bytes st [rest ->].
    pose proof (negative_unmatched rest) as N.
    split; [now apply match_none_iff|].
    unfold notification_handler, Bytes.decode, bind.
    destruct (Bytes.well_formed [] ("T=-" ++ rest)) eqn:W.
    + rewrite N. repeat split; try discriminate.
      now apply deliver_unmatched.
    + repeat split; try discriminate. now apply deliver_unmatched.
  - intros env fuel Hf (Hs & Hq & Hl).
    assert (U : forall l, Forall starts_negative l ->
                          deliver_all None l = None).
    { intros l Hl'. apply deliver_all_unmatched.
      eapply Forall_impl; [|exact Hl']. intros b [rest ->].
      apply negative_unmatched. }
    apply requestMeasurement_silent; [exact Hf|]. repeat split; auto.
Qed.

(** ** The scanner callback *)

Section Scan.

Lemma seen_iff (a : string) (l : list string) :
  existsb (String.eqb a) l = true <-> In a l.
Proof.
  rewrite existsb_exists. split.
  - intros (x & Hx & E). apply String.eqb_eq in E. now subst.
  - intros H. exists a. split; [assumption|apply String.eqb_refl].
Qed.

Lemma callback_seen (st : scan_state) (d : BLEDevice) :
  In (address d) (found_devices st) -> callback st d = st.
Proof.
  intros H. unfold callback. apply seen_iff in H. now rewrite H.
Qed.

Lemma callback_found (st : scan_state) (d : BLEDevice) :
  found_devices (callback st d)
  = if existsb (String.eqb (address d)) (found_devices st)
    then found_devices st
    else (found_devices st ++ [address d])%list.
Proof.
  unfold callback.
  destruct (existsb _ _); [reflexivity|].
  destruct (named d && vendor d); [reflexivity|].
  destruct (named d); reflexivity.
Qed.

Lemma callback_stdout (st : scan_state) (d : BLEDevice) :
  stdout (callback st d)
  = if negb (existsb (String.eqb (address d)) (found_devices st))
       && (named d && vendor d)
    then (stdout st ++ [report_line d])%list
    else stdout st.
Proof.
  unfold callback.
  destruct (existsb _ _); [reflexivity|].
  destruct (named d && vendor d); [reflexivity|].
  destruct (named d); reflexivity.
Qed.

Lemma callback_budget (st : scan_state) (d : BLEDevice) :
  (List.length (stdout st) + List.length (stderr st)
     <= List.length (found_devices st))%nat ->
  (List.length (stdout (callback st d)) + List.length (stderr (callback st d))
     <= List.length (found_devices (callback st d)))%nat.
Proof.
  intros H. unfold callback.
  destruct (existsb _ _); [exact H|].
  destruct (named d && vendor d); [|destruct (named d)]; simpl;
    rewrite ?length_app; simpl; lia.
Qed.

Lemma named_spec (d : BLEDevice) :
  named d = true <-> exists n, name d = Some n /\ n <> "".
Proof.
  unfold named. destruct (name d) as [[|c n]|]; split;
    try discriminate; try reflexivity.
  - intros (n & E & N). congruence.
  - intros _. eexists. split; [reflexivity|discriminate].
  - intros (n & E & _). discriminate.
Qed.

Lemma scan_snoc (events : list BLEDevice) (d : BLEDevice) :
  scan (events ++ [d]) = callback (scan events) d.
Proof. unfold scan. now rewrite fold_left_app. Qed.

Lemma scan_found_nodup (events : list BLEDevice) :
  NoDup (found_devices (scan events)).
Proof.
  induction events as [|d events IH] using rev_ind.
  - constructor.
  - rewrite scan_snoc, callback_found.
    destruct (existsb _ _) eqn:E; [exact IH|].
    apply NoDup_app; [exact IH|repeat constructor; intros []|].
    intros a Ha [<-|[]].
    apply seen_iff in Ha. congruence.
Qed.

Lemma scan_found_all (events : list BLEDevice) (d : BLEDevice) :
  In d events -> In (address d) (found_devices (scan events)).
Proof.
  induction events as [|d' events IH] using rev_ind; [intros []|].
  intros H. rewrite scan_snoc, callback_found. apply in_app_or in H.
  destruct (existsb _ _) eqn:E.
  - destruct H as [H|[->|[]]]; [now apply IH|now apply seen_iff].
  - apply in_or_app. destruct H as [H|[->|[]]]; [left; now apply IH|].
    right. now left.
Qed.

Lemma scan_stdout (events : list BLEDevice) (line : string) :
  In line (stdout (scan events)) ->
  exists d, In d events /\ line = report_line d /\
            named d = true /\ vendor d = true.
Proof.
  induction events as [|d events IH] using rev_ind; [intros []|].
  rewrite scan_snoc, callback_stdout. intros H.
  assert (Hold : In line (stdout (scan events)) ->
                 exists d0, In d0 (events ++ [d])%list /\ line = report_line d0 /\
                            named d0 = true /\ vendor d0 = true).
  { intros H'. destruct (IH H') as (d0 & Hd & Hr).
    exists d0. split; [apply in_or_app; now left|exact Hr]. }
  destruct (negb _ && _) eqn:E; [|now apply Hold].
  apply in_app_or in H. destruct H as [H|[<-|[]]]; [now apply Hold|].
  apply andb_prop in E as [_ E]. apply andb_prop in E as [En Ev].
  exists d. split; [apply in_or_app; right; now left|auto].
Qed.

Lemma scan_budget (events : list BLEDevice) :
  (List.length (stdout (scan events)) + List.length (stderr (scan events))
     <= List.length (found_devices (scan events)))%nat.
Proof.
  induction events as [|d events IH] using rev_ind; [simpl; lia|].
  rewrite scan_snoc. now apply callback_budget.
Qed.

End Scan.

(** C9: a line on standard output is the address and name of a scanned
    device that has a non-empty name and whose lowercased address starts
    with ["4c:65:a8:"]; every scanned device has its address counted in
    [found_devices]; no address is counted twice, and a device whose
    address is already counted changes nothing; a device without a name
    or with another prefix prints nothing on standard output. *)
Theorem C9_scan_callback (events : list BLEDevice) :
  (forall line, In line (stdout (scan events)) ->
     exists d n, In d events /\ line = address d ++ "    " ++ n /\
       name d = Some n /\ n <> "" /\
       startswith (lower (address d)) "4c:65:a8:" = true) /\
  (forall d, In d events -> In (address d) (found_devices (scan events))) /\
  NoDup (found_devices (scan events)) /\
  (List.length (stdout (scan events)) + List.length (stderr (scan events))
     <= List.length (found_devices (scan events)))%nat /\
  (forall st d, In (address d) (found_devices st) -> callback st d = st) /\
  (forall st d,
     ~ (exists n, name d = Some n /\ n <> "" /\
          startswith (lower (address d)) "4c:65:a8:" = true) ->
     stdout (callback st d) = stdout st /\
     In (address d) (found_devices (callback st d))).
Proof.
  split; [|split; [|split; [|split; [|split]]]].
  - intros line H. apply scan_stdout in H as (d & Hd & -> & Hn & Hv).
    apply named_spec in Hn as (n & En & Nn).
    exists d, n. unfold report_line, name_text. rewrite En. auto.
  - apply scan_found_all.
  - apply scan_found_nodup.
  - apply scan_budget.
  - apply callback_seen.
  - intros st d N. split.
    + rewrite callback_stdout.
      destruct (named d) eqn:En, (vendor d) eqn:Ev;
        rewrite ?andb_false_r, ?andb_false_l; try reflexivity.
      exfalso. apply N. apply named_spec in En as (n & En & Nn).
      exists n. auto.
    + rewrite callback_found. destruct (existsb _ _) eqn:E.
      * now apply seen_iff.
      * apply in_or_app. right. now left.
Qed.

(** ** The definitions on concrete inputs *)

Example match_reading :
  Re.match_ "T=23.5 H=45.1" = Some ("23.5", "45.1").
Proof. reflexivity. Qed.

Example match_trailing_text :
  Re.match_ "T=23.5 H=45.1 and more" = Some ("23.5", "45.1").
Proof. reflexivity. Qed.

Example match_negative : Re.match_ "T=-5.0 H=40.0" = None.
Proof. reflexivity. Qed.

Example match_two_dots : Re.match_ "T=1.2.3 H=." = Some ("1.2.3", ".").
Proof. reflexivity. Qed.

Example float_reading : float "23.5" = Ok (IZR 235 / IZR 10).
Proof. reflexivity. Qed.

Example float_two_dots : float "1.2.3" = Raise ValueError.
Proof. reflexivity. Qed.

Example float_lone_dot : float "." = Raise ValueError.
Proof. reflexivity. Qed.

Example decode_ascii : Bytes.decode "T=23.5 H=45.1" = Ok "T=23.5 H=45.1".
Proof. reflexivity. Qed.

Example decode_stray_continuation :
  Bytes.decode (String (ascii_of_N 128) "T=1 H=2") = Raise UnicodeDecodeError.
Proof. reflexivity. Qed.

Example decode_degree_sign :
  Bytes.well_formed [] (String (ascii_of_N 194) (String (ascii_of_N 176) "C"))
  = true.
Proof. reflexivity. Qed.

Example handler_reading :
  exists m, notification_handler "T=20.0 H=50.0" = Ok (Some m) /\
    temperatureC m = 20 /\ relHumidity m = 50.
Proof.
  exists (built (IZR 200 / IZR 10) (IZR 500 / IZR 10)).
  unfold notification_handler.
  change (Bytes.decode "T=20.0 H=50.0") with (@Ok string "T=20.0 H=50.0").
  unfold bind at 1.
  change (Re.match_ "T=20.0 H=50.0") with (Some ("20.0", "50.0")).
  cbv beta iota.
  change (float "20.0") with (Ok (IZR 200 / IZR 10)).
  change (float "50.0") with (Ok (IZR 500 / IZR 10)).
  unfold bind at 1 2.
  rewrite Measurement_init_defined by (apply defined_in_range; lra).
  repeat split; simpl; lra.
Qed.

Example handler_zero_humidity :
  deliver None "T=20.0 H=0.0" = None.
Proof.
  unfold deliver, notification_handler.
  change (Bytes.decode "T=20.0 H=0.0") with (@Ok string "T=20.0 H=0.0").
  unfold bind at 1.
  change (Re.match_ "T=20.0 H=0.0") with (Some ("20.0", "0.0")).
  cbv beta iota.
  change (float "20.0") with (Ok (IZR 200 / IZR 10)).
  change (float "0.0") with (Ok (IZR 0 / IZR 10)).
  unfold bind at 1 2.
  destruct (Measurement_init_raises (IZR 200 / IZR 10) (IZR 0 / IZR 10))
    as [e ->]; [|reflexivity].
  unfold defined. intros (_ & _ & H & _). apply z2_sign in H. lra.
Qed.

Example arrival_at_fourth_poll :
  exists m, requestMeasurement 11 one_reading None = Some (Some m, 4%nat) /\
    temperatureC m = 20 /\ relHumidity m = 50.
Proof.
  destruct handler_reading as (m & Hm & Hv). exists m. split; [|exact Hv].
  unfold requestMeasurement. simpl during_setup. simpl during_stop.
  change (deliver_all None []) with (@None Measurement).
  rewrite (wait_loop_arrival one_reading 3 m); try lia.
  - reflexivity.
  - simpl. unfold deliver. now rewrite Hm.
  - intros j Hj. unfold one_reading, during_sleep.
    destruct (Nat.eqb_spec j 3) as [E|_]; [lia|reflexivity].
Qed.

Example scan_run :
  scan [ mkBLEDevice "4C:65:A8:DA:00:01" (Some "MJ_HT_V1");
         mkBLEDevice "AA:BB:CC:00:00:02" (Some "other");
         mkBLEDevice "4c:65:a8:00:00:03" None;
         mkBLEDevice "4C:65:A8:DA:00:01" (Some "MJ_HT_V1");
         mkBLEDevice "4c:65:a8:00:00:04" (Some "") ]
  = mkScan [ "4C:65:A8:DA:00:01"; "AA:BB:CC:00:00:02";
             "4c:65:a8:00:00:03"; "4c:65:a8:00:00:04" ]
           [ "4C:65:A8:DA:00:01    MJ_HT_V1" ]
           [ 2%nat ].
Proof. reflexivity. Qed.

(** * Part IV: further properties of the code *)

(** ** The scanner: which addresses and which lines *)

Section ScanMore.

Lemma scan_found_sound (events : list BLEDevice) (a : string) :
  In a (found_devices (scan events)) ->
  exists d, In d events /\ address d = a.
Proof.
  induction events as [|d events IH] using rev_ind; [intros []|].
  rewrite scan_snoc, callback_found. intros H.
  assert (Hold : In a (found_devices (scan events)) ->
                 exists d0, In d0 (events ++ [d])%list /\ address d0 = a).
  { intros H'. destruct (IH H') as (d0 & Hd & E).
    exists d0. split; [apply in_or_app; now left|exact E]. }
  destruct (existsb _ _); [now apply Hold|].
  apply in_app_or in H. destruct H as [H|[<-|[]]]; [now apply Hold|].
  exists d. split; [apply in_or_app; right; now left|reflexivity].
Qed.

Lemma stdout_grows (st : scan_state) (d : BLEDevice) (line : string) :
  In line (stdout st) -> In line (stdout (callback st d)).
Proof.
  intros H. rewrite callback_stdout.
  destruct (negb _ && _); [apply in_or_app; now left|exact H].
Qed.

Lemma fold_seen (l : list BLEDevice) :
  forall st, (forall d, In d l -> In (address d) (found_devices st)) ->
  fold_left callback l st = st.
Proof.
  induction l as [|d l IH]; intros st H; simpl; [reflexivity|].
  rewrite callback_seen by (apply H; now left).
  apply IH. intros d' Hd'. apply H. now right.
Qed.

End ScanMore.

(** X1: [found_devices] after a scan lists the addresses of the events,
    each once, in the order in which they were first seen. *)
Theorem scan_found_first_seen (events : list BLEDevice) :
  found_devices (scan events)
  = rev (nodup string_dec (rev (map address events))).
Proof.
  induction events as [|d events IH] using rev_ind; [reflexivity|].
  rewrite scan_snoc, callback_found, map_app, rev_app_distr. simpl.
  destruct (in_dec string_dec (address d) (rev (map address events)))
    as [Hin|Hout].
  - assert (E : existsb (String.eqb (address d)) (found_devices (scan events))
                = true).
    { apply seen_iff. rewrite IH. rewrite <- in_rev.
      apply nodup_In. exact Hin. }
    rewrite E. exact IH.
  - assert (E : existsb (String.eqb (address d)) (found_devices (scan events))
                = false).
    { destruct (existsb _ _) eqn:E; [|reflexivity].
      exfalso. apply Hout. apply seen_iff in E. rewrite IH in E.
      rewrite <- in_rev in E. now apply nodup_In in E. }
    rewrite E. simpl. now rewrite IH.
Qed.

(** X2: a line is printed on standard output exactly for an event that
    is the first with its address and that has a name and the vendor
    prefix.  A device first seen without a name is never reported, however
    it is advertised later. *)
Theorem scan_stdout_first_sighting (events : list BLEDevice) (line : string) :
  In line (stdout (scan events)) <->
  exists pre d post,
    events = (pre ++ d :: post)%list /\
    (forall x, In x pre -> address x <> address d) /\
    reportable d = true /\ line = report_line d.
Proof.
  induction events as [|d0 events IH] using rev_ind.
  - split; [intros []|]. intros (pre & d & post & E & _).
    destruct pre; discriminate.
  - rewrite scan_snoc. split.
    + rewrite callback_stdout. intros H.
      assert (Hold : In line (stdout (scan events)) ->
                exists pre d post,
                  (events ++ [d0])%list = (pre ++ d :: post)%list /\
                  (forall x, In x pre -> address x <> address d) /\
                  reportable d = true /\ line = report_line d).
      { intros H'. apply IH in H' as (pre & d & post & -> & Hp & Hr & Hl).
        exists pre, d, (post ++ [d0])%list.
        rewrite <- app_assoc. simpl. auto. }
      destruct (negb _ && _) eqn:E; [|now apply Hold].
      apply in_app_or in H. destruct H as [H|[<-|[]]]; [now apply Hold|].
      apply andb_prop in E as [Ef Er].
      exists events, d0, []. repeat split; try assumption.
      intros x Hx Eq. apply negb_true_iff in Ef.
      assert (In (address d0) (found_devices (scan events))).
      { rewrite <- Eq. now apply scan_found_all. }
      apply seen_iff in H. congruence.
    + intros (pre & d & post & E & Hp & Hr & ->).
      destruct post as [|p post] using rev_ind.
      * apply app_inj_tail in E as [-> ->].
        rewrite callback_stdout.
        assert (Ef : existsb (String.eqb (address d)) (found_devices (scan pre))
                     = false).
        { destruct (existsb _ _) eqn:Ef; [|reflexivity].
          apply seen_iff, scan_found_sound in Ef as (x & Hx & Ex).
          exfalso. now apply (Hp x Hx). }
        unfold reportable in Hr. rewrite Ef, Hr. simpl.
        apply in_or_app. right. now left.
      * clear IHpost.
        change (pre ++ d :: post ++ [p])%list
          with (pre ++ (d :: post) ++ [p])%list in E.
        rewrite app_assoc in E. apply app_inj_tail in E as [-> ->].
        apply stdout_grows. apply IH. exists pre, d, post. auto.
Qed.

(** X3: advertisements of addresses already seen change nothing: a scan
    that hears the whole sequence of events a second time ends in the same
    state. *)
Theorem scan_repeat (events : list BLEDevice) :
  scan (events ++ events) = scan events.
Proof.
  unfold scan. rewrite fold_left_app. apply fold_seen.
  intros d Hd. now apply scan_found_all.
Qed.

(** ** The handler: what a payload can store *)

Section HandlerMore.

Lemma pow10_pos (n : nat) : 0 < IZR (10 ^ Z.of_nat n).
Proof. apply IZR_lt. apply Z.pow_pos_nonneg; lia. Qed.

Lemma digit_test (c : ascii) :
  Re.num_char c = true -> Ascii.eqb c "." = false ->
  ((48 <=? N_of_ascii c) && (N_of_ascii c <=? 57))%N = true.
Proof.
  unfold Re.num_char. intros H E. rewrite E, orb_false_r in H. exact H.
Qed.

Lemma float_scan_nonneg (s : string) :
  forall mant frac dot digit x,
  (0 <= mant)%Z -> float_scan s mant frac dot digit = Ok x -> 0 <= x.
Proof.
  induction s as [|c s IH]; intros mant frac dot digit x Hm; simpl.
  - destruct digit; [|discriminate]. intros H. injection H as <-.
    apply Rmult_le_pos; [now apply IZR_le|].
    left. apply Rinv_0_lt_compat, pow10_pos.
  - destruct (Ascii.eqb c ".").
    + destruct dot; [discriminate|]. now apply IH.
    + destruct ((48 <=? N_of_ascii c) && (N_of_ascii c <=? 57))%N eqn:E;
        [|discriminate].
      apply IH. apply andb_prop in E as [E _]. apply N.leb_le in E. lia.
Qed.

Lemma float_scan_raises (s : string) :
  forall mant frac dot digit e,
  float_scan s mant frac dot digit = Raise e -> e = ValueError.
Proof.
  induction s as [|c s IH]; intros mant frac dot digit e; simpl.
  - destruct digit; congruence.
  - destruct (Ascii.eqb c ".").
    + destruct dot; [congruence|]. apply IH.
    + destruct ((48 <=? N_of_ascii c) && (N_of_ascii c <=? 57))%N;
        [apply IH|congruence].
Qed.

Lemma float_scan_ok (s : string) :
  all_num s = true ->
  forall mant frac dot digit,
  (exists x, float_scan s mant frac dot digit = Ok x) <->
  (dots s + Nat.b2n dot <= 1)%nat /\ (digit = true \/ 1 <= digits s)%nat.
Proof.
  induction s as [|c s IH]; intros Hs mant frac dot digit; simpl in *.
  - destruct digit; split.
    + intros _. destruct dot; simpl; split; auto; lia.
    + eauto.
    + intros [x H]. discriminate.
    + intros [_ [H|H]]; [discriminate|lia].
  - apply andb_prop in Hs as [Hc Hs].
    destruct (Ascii.eqb c ".") eqn:E.
    + destruct dot; simpl.
      * split; [intros [x H]; discriminate|intros [H _]; lia].
      * rewrite (IH Hs). simpl. split; intros [H1 H2]; split; lia || tauto.
    + rewrite (digit_test c Hc E), (IH Hs). simpl.
      split; intros [H1 H2]; (split; [lia|]); [right; lia|now left].
Qed.

Lemma match_payload (g1 g2 rest : string) :
  g1 <> "" -> all_num g1 = true -> g2 <> "" -> all_num g2 = true ->
  stops rest ->
  Re.match_ (payload g1 g2 rest) = Some (g1, g2).
Proof.
  intros N1 A1 N2 A2 Hr. unfold Re.match_, payload.
  assert (E1 : Re.strip "T=" ("T=" ++ g1 ++ " H=" ++ g2 ++ rest)
               = Some (g1 ++ " H=" ++ g2 ++ rest)) by (now apply strip_spec).
  rewrite E1. rewrite (span_app g1 (" H=" ++ g2 ++ rest) A1) by reflexivity.
  destruct g1 as [|c1 g1]; [congruence|].
  assert (E2 : Re.strip " H=" (" H=" ++ g2 ++ rest) = Some (g2 ++ rest))
    by (now apply strip_spec).
  rewrite E2, (span_app g2 rest A2 Hr).
  destruct g2 as [|c2 g2]; [congruence|reflexivity].
Qed.

Lemma handler_payload (g1 g2 rest : string) :
  g1 <> "" -> all_num g1 = true -> g2 <> "" -> all_num g2 = true ->
  stops rest ->
  Bytes.well_formed [] (payload g1 g2 rest) = true ->
  notification_handler (payload g1 g2 rest)
  = (t <- float g1 ;; h <- float g2 ;; m <- Measurement_init t h ;;
     Ok (Some m)).
Proof.
  intros N1 A1 N2 A2 Hr W. unfold notification_handler, Bytes.decode.
  rewrite W. unfold bind at 1. now rewrite match_payload.
Qed.

Lemma deliver_undecodable (st : option Measurement) (bytes : string) :
  Bytes.well_formed [] bytes = false -> deliver st bytes = st.
Proof.
  intros W. unfold deliver, notification_handler, Bytes.decode.
  now rewrite W.
Qed.

Lemma handler_inv (bytes : string) (m : Measurement) :
  notification_handler bytes = Ok (Some m) ->
  exists g0 g1 t h,
    Re.match_ bytes = Some (g0, g1) /\ float g0 = Ok t /\ float g1 = Ok h /\
    Measurement_init t h = Ok m.
Proof.
  unfold notification_handler, Bytes.decode.
  destruct (Bytes.well_formed [] bytes); [|discriminate].
  unfold bind at 1.
  destruct (Re.match_ bytes) as [[g0 g1]|]; [|discriminate].
  destruct (float g0) as [t|e] eqn:E0; [|discriminate].
  destruct (float g1) as [h|e] eqn:E1; [|discriminate].
  unfold bind at 1 2.
  destruct (Measurement_init t h) as [m'|e] eqn:Em; [|discriminate].
  unfold bind. intros H. injection H as <-.
  exists g0, g1, t, h. auto.
Qed.

Lemma handler_stores (bytes : string) (m : Measurement) :
  notification_handler bytes = Ok (Some m) ->
  exists t h, 0 <= t /\ 0 < h /\ Measurement_init t h = Ok m /\ m = built t h.
Proof.
  intros H. apply handler_inv in H as (g0 & g1 & t & h & _ & E0 & E1 & Em).
  apply float_scan_nonneg in E0; [|lia].
  pose proof Em as Em'.
  apply Measurement_init_inv in Em' as [(_ & _ & Hz & _) ->].
  apply z2_sign in Hz. exists t, h. auto.
Qed.

Lemma saturated_le_all (T : R) : 0 <= T -> dew_raw T 100 <= T.
Proof.
  intros H0. rewrite dew_raw_saturated by lra.
  pose proof kappa_bounds as [[K1 K2] K3].
  assert (HkT : 0 <= (1 - kappa) * T) by (apply Rmult_le_pos; lra).
  assert (HP : 0 <= (1 - kappa) * T * (235 + T)).
  { apply Rmult_le_pos; lra. }
  apply div_le_intro; lra.
Qed.

Lemma dew_le_nonneg_temperature (T h : R) (m : Measurement) :
  0 <= T -> 0 < h <= 100 -> Measurement_init T h = Ok m ->
  dewPointC m <= T.
Proof.
  intros H0 Hh E. apply Measurement_init_inv in E as [_ ->].
  rewrite dewPointC_built.
  pose proof (dew_raw_le_saturated T h ltac:(lra) Hh) as Hle.
  pose proof (saturated_le_all T H0) as Hs.
  destruct (Rle_dec 0 (dew_raw T h)) as [Hd|Hd].
  - pose proof (tenth_int_nonneg _ Hd). lra.
  - pose proof (tenth_int_neg (dew_raw T h) ltac:(lra)). lra.
Qed.

End HandlerMore.

(** X4: a payload that decodes and reads ["T=<g1> H=<g2>"] followed by
    anything that does not continue the second number is handled as the
    two numbers alone: the handler converts [g1] and [g2] with [float] and
    builds the Measurement from them, whatever bytes follow. *)
Theorem handler_ignores_trailing (g1 g2 rest : string)
  (N1 : g1 <> "") (A1 : all_num g1 = true)
  (N2 : g2 <> "") (A2 : all_num g2 = true)
  (Hr : stops rest)
  (W : Bytes.well_formed [] (payload g1 g2 rest) = true) :
  notification_handler (payload g1 g2 rest)
  = (t <- float g1 ;; h <- float g2 ;; m <- Measurement_init t h ;;
     Ok (Some m)) /\
  notification_handler (payload g1 g2 rest)
  = notification_handler (payload g1 g2 "").
Proof.
  assert (W0 : Bytes.well_formed [] (payload g1 g2 "") = true).
  { unfold payload in *. clear N1 N2 Hr.
    assert (G : forall s r, all_num s = true ->
                Bytes.well_formed [] (s ++ r) = Bytes.well_formed [] r).
    { induction s as [|c s IH]; intros r Hs; [reflexivity|].
      simpl in Hs. apply andb_prop in Hs as [Hc Hs]. simpl.
      assert (L : Bytes.lead c = Some []).
      { unfold Re.num_char in Hc. unfold Bytes.lead, Bytes.code.
        destruct (N.leb_spec (N_of_ascii c) 127) as [_|Hbig]; [reflexivity|].
        exfalso. apply orb_prop in Hc as [Hc|Hc].
        - apply andb_prop in Hc as [_ Hc]. apply N.leb_le in Hc. lia.
        - apply Ascii.eqb_eq in Hc. subst c. simpl in Hbig. lia. }
      rewrite L. now apply IH. }
    simpl. simpl in W. rewrite G by exact A1. rewrite G in W by exact A1.
    simpl. simpl in W. rewrite G by exact A2. reflexivity. }
  rewrite !handler_payload by (try assumption; exact I). auto.
Qed.

Lemma handler_ignores_trailing_witness :
  notification_handler (payload "20.0" "50.0" " C")
  = (t <- float "20.0" ;; h <- float "50.0" ;; m <- Measurement_init t h ;;
     Ok (Some m)) /\
  notification_handler (payload "20.0" "50.0" " C")
  = notification_handler (payload "20.0" "50.0" "").
Proof.
  apply (handler_ignores_trailing "20.0" "50.0" " C");
    try discriminate; reflexivity.
Defined.

(** X5: whatever the payload, a Measurement that the handler stores has a
    temperature of zero or more and a positive humidity: the pattern has
    no sign, and the constructor raises on a humidity of zero. *)
Theorem handler_reading_signs (bytes : string) (m : Measurement)
  (H : notification_handler bytes = Ok (Some m)) :
  0 <= temperatureC m /\ 0 < relHumidity m.
Proof.
  apply handler_stores in H as (t & h & Ht & Hh & _ & ->). simpl. auto.
Qed.

Lemma handler_reading_signs_witness :
  0 <= temperatureC (built (IZR 200 / IZR 10) (IZR 500 / IZR 10)) /\
  0 < relHumidity (built (IZR 200 / IZR 10) (IZR 500 / IZR 10)).
Proof.
  apply (handler_reading_signs "T=20.0 H=50.0").
  unfold notification_handler.
  change (Bytes.decode "T=20.0 H=50.0") with (@Ok string "T=20.0 H=50.0").
  unfold bind at 1.
  change (Re.match_ "T=20.0 H=50.0") with (Some ("20.0", "50.0")).
  cbv beta iota.
  change (float "20.0") with (Ok (IZR 200 / IZR 10)).
  change (float "50.0") with (Ok (IZR 500 / IZR 10)).
  unfold bind at 1 2.
  rewrite Measurement_init_defined by (apply defined_in_range; lra).
  reflexivity.
Defined.

(** X6: a Measurement that the handler stores with a humidity of at most
    100 has a dew point that does not exceed its temperature, at every
    temperature the sensor can send. *)
Theorem handler_dew_le_temperature (bytes : string) (m : Measurement)
  (H : notification_handler bytes = Ok (Some m))
  (Hh : relHumidity m <= 100) :
  dewPointC m <= temperatureC m.
Proof.
  apply handler_stores in H as (t & h & Ht & Hp & Em & ->).
  change (relHumidity (built t h)) with h in Hh.
  change (temperatureC (built t h)) with t.
  apply (dew_le_nonneg_temperature t h); auto.
Qed.

Lemma handler_20_50 :
  notification_handler "T=20.0 H=50.0"
  = Ok (Some (built (IZR 200 / IZR 10) (IZR 500 / IZR 10))).
Proof.
  unfold notification_handler.
  change (Bytes.decode "T=20.0 H=50.0") with (@Ok string "T=20.0 H=50.0").
  unfold bind at 1.
  change (Re.match_ "T=20.0 H=50.0") with (Some ("20.0", "50.0")).
  cbv beta iota.
  change (float "20.0") with (Ok (IZR 200 / IZR 10)).
  change (float "50.0") with (Ok (IZR 500 / IZR 10)).
  unfold bind at 1 2.
  now rewrite Measurement_init_defined by (apply defined_in_range; lra).
Qed.

Lemma handler_dew_le_temperature_witness :
  dewPointC (built (IZR 200 / IZR 10) (IZR 500 / IZR 10))
  <= temperatureC (built (IZR 200 / IZR 10) (IZR 500 / IZR 10)).
Proof.
  apply (handler_dew_le_temperature "T=20.0 H=50.0").
  - exact handler_20_50.
  - simpl. lra.
Defined.

Section HandlerEdges.

Lemma float_bad (g : string) :
  all_num g = true -> (2 <= dots g \/ digits g = 0)%nat ->
  float g = Raise ValueError.
Proof.
  intros A B. unfold float.
  destruct (float_scan g 0 0 false false) as [x|e] eqn:E.
  - exfalso.
    assert (H : exists x, float_scan g 0 0 false false = Ok x) by eauto.
    apply (float_scan_ok g A) in H as [H1 [H2|H2]];
      [discriminate|simpl in H1; lia].
  - apply float_scan_raises in E. now subst.
Qed.

Lemma float_raises (g : string) (e : exn) : float g = Raise e -> e = ValueError.
Proof. apply float_scan_raises. Qed.

Lemma deliver_all_quiet (l : list string) (st : option Measurement) :
  quiet l -> deliver_all st l = st.
Proof.
  intros Q. revert st. induction Q as [|b l Hb _ IH]; intros st; simpl;
    [reflexivity|].
  rewrite Hb. apply IH.
Qed.

End HandlerEdges.

(** X7: a payload whose humidity reads as zero stores nothing: the
    constructor raises inside the callback and [self._measurement] keeps
    its value, so a sensor that reports 0 percent makes the request time
    out. *)
Theorem zero_humidity_stores_nothing
  (st : option Measurement) (g1 g2 rest : string) (h : R)
  (N1 : g1 <> "") (A1 : all_num g1 = true)
  (N2 : g2 <> "") (A2 : all_num g2 = true)
  (Hr : stops rest) (F : float g2 = Ok h) (Hz : h = 0) :
  deliver st (payload g1 g2 rest) = st.
Proof.
  destruct (Bytes.well_formed [] (payload g1 g2 rest)) eqn:W;
    [|now apply deliver_undecodable].
  unfold deliver. rewrite handler_payload by assumption.
  destruct (float g1) as [t|e]; [|reflexivity].
  rewrite F. unfold bind at 1 2.
  destruct (Measurement_init_raises t h) as [e ->]; [|reflexivity].
  unfold defined. intros (_ & _ & H & _). apply z2_sign in H. lra.
Qed.

Lemma zero_humidity_stores_nothing_witness :
  deliver None (payload "20.0" "0.0" "") = None.
Proof.
  apply (zero_humidity_stores_nothing None "20.0" "0.0" "" (IZR 0 / IZR 10));
    try discriminate; try reflexivity.
  lra.
Defined.

(** X8: a payload that matches the pattern but whose temperature or
    humidity has two or more dots, or no digit at all, stores nothing;
    when the payload decodes, the handler raises [ValueError]. *)
Theorem malformed_number_raises
  (st : option Measurement) (g1 g2 rest : string)
  (N1 : g1 <> "") (A1 : all_num g1 = true)
  (N2 : g2 <> "") (A2 : all_num g2 = true)
  (Hr : stops rest)
  (Hbad : (2 <= dots g1 \/ digits g1 = 0 \/ 2 <= dots g2 \/ digits g2 = 0)%nat) :
  deliver st (payload g1 g2 rest) = st /\
  (Bytes.well_formed [] (payload g1 g2 rest) = true ->
   notification_handler (payload g1 g2 rest) = Raise ValueError).
Proof.
  assert (R : Bytes.well_formed [] (payload g1 g2 rest) = true ->
              notification_handler (payload g1 g2 rest) = Raise ValueError).
  { intros W. rewrite handler_payload by assumption.
    destruct (float g1) as [t|e] eqn:E1.
    - assert (B2 : (2 <= dots g2 \/ digits g2 = 0)%nat).
      { destruct Hbad as [B|[B|[B|B]]]; auto;
          rewrite float_bad in E1 by auto; discriminate. }
      rewrite (float_bad g2 A2 B2). reflexivity.
    - apply float_raises in E1. now subst. }
  split; [|exact R].
  destruct (Bytes.well_formed [] (payload g1 g2 rest)) eqn:W;
    [|now apply deliver_undecodable].
  unfold deliver. now rewrite R.
Qed.

Lemma malformed_number_raises_witness :
  deliver None (payload "1.2.3" "40" "") = None /\
  (Bytes.well_formed [] (payload "1.2.3" "40" "") = true ->
   notification_handler (payload "1.2.3" "40" "") = Raise ValueError).
Proof.
  apply (malformed_number_raises None "1.2.3" "40" "");
    try discriminate; try reflexivity.
  left. simpl. lia.
Defined.

(** X9: [self._measurement] is never reset.  A call made while a
    Measurement is stored sleeps zero times and returns a Measurement;
    when the notifications of the call store nothing, it returns the old
    one. *)
Theorem stale_measurement_returned
  (fuel : nat) (env : notifications) (m : Measurement)
  (Hf : (0 < fuel)%nat) :
  (exists m', requestMeasurement fuel env (Some m) = Some (Some m', 0%nat)) /\
  (quiet (during_setup env) -> quiet (during_stop env) ->
   requestMeasurement fuel env (Some m) = Some (Some m, 0%nat)).
Proof.
  destruct fuel as [|fuel]; [lia|]. split.
  - unfold requestMeasurement.
    destruct (deliver_all_some (during_setup env) m) as [m1 ->].
    rewrite wait_loop_some.
    destruct (deliver_all_some (during_stop env) m1) as [m2 ->]. eauto.
  - intros Qs Qe. unfold requestMeasurement.
    rewrite (deliver_all_quiet _ _ Qs), wait_loop_some.
    now rewrite (deliver_all_quiet _ _ Qe).
Qed.

Lemma stale_measurement_returned_witness :
  (exists m',
      requestMeasurement 1 one_reading (Some (built 25 50))
      = Some (Some m', 0%nat)) /\
  (quiet (during_setup one_reading) -> quiet (during_stop one_reading) ->
   requestMeasurement 1 one_reading (Some (built 25 50))
   = Some (Some (built 25 50), 0%nat)).
Proof.
  apply (stale_measurement_returned 1 one_reading (built 25 50)). lia.
Defined.

(** ** The constructor: every outcome, and the sign of the fields *)

Section ConstructorMore.

Lemma round_zero : Py.round 0 = 0%Z.
Proof.
  unfold Py.round. change 0 with (IZR 0). rewrite ZfloorZ.
  destruct (Rlt_dec (IZR 0 - IZR 0) (1 / 2)) as [_|N]; [reflexivity|lra].
Qed.

Lemma round_nonneg (x : R) : 0 <= x -> 0 <= IZR (Py.round x).
Proof.
  intros H. apply IZR_le. rewrite <- round_zero. now apply round_le.
Qed.

Lemma z3_sign (T h : R) :
  0 < h ->
  (6.1 <= e_at T h -> 0 <= z3_at T h) /\ (e_at T h <= 6.1 -> z3_at T h <= 0).
Proof.
  intros Hh. apply (e_at_sign T) in Hh. unfold z3_at. split; intros H.
  - assert (0 <= ln (e_at T h / 6.1)); [|lra].
    destruct (Req_dec_T (e_at T h / 6.1) 1) as [->|N]; [rewrite ln_1; lra|].
    left. rewrite <- ln_1. apply ln_increasing; lra.
  - assert (ln (e_at T h / 6.1) <= 0); [|lra].
    destruct (Req_dec_T (e_at T h / 6.1) 1) as [->|N]; [rewrite ln_1; lra|].
    left. rewrite <- ln_1. apply ln_increasing; lra.
Qed.

End ConstructorMore.

(** X11: whenever the constructor returns and the temperature is above
    -273.15, [absHumidity] and [steamPressure] are zero or more. *)
Theorem humidity_fields_nonneg (T h : R) (m : Measurement)
  (H : Measurement_init T h = Ok m) (HT : -273.15 < T) :
  0 <= absHumidity m /\ 0 <= steamPressure m.
Proof.
  apply Measurement_init_inv in H as [(_ & _ & Hz & _) ->].
  apply z2_sign, (e_at_sign T) in Hz. simpl. split.
  - assert (0 <= IZR (Py.round (abs_raw T h * 10))); [|lra].
    apply round_nonneg. unfold abs_raw.
    assert (0 < 216.7 * e_at T h / (273.15 + T)); [|lra].
    apply Rdiv_lt_0_compat; lra.
  - assert (0 <= IZR (Py.int (e_at T h * 10))); [|lra].
    apply int_nonneg_sign. lra.
Qed.

Lemma humidity_fields_nonneg_witness :
  0 <= absHumidity (built 25 50) /\ 0 <= steamPressure (built 25 50).
Proof.
  apply (humidity_fields_nonneg 25 50); [constructed|lra].
Defined.

(** X12: for a temperature above -235 and a humidity in (0, 100], the
    dew point is zero or more when the vapour pressure [e] is at least
    6.1, and zero or less when it is at most 6.1. *)
Theorem dew_point_sign (T h : R) (m : Measurement)
  (HT : -235 < T) (Hh : 0 < h <= 100) (H : Measurement_init T h = Ok m) :
  (6.1 <= e_at T h -> 0 <= dewPointC m) /\
  (e_at T h <= 6.1 -> dewPointC m <= 0).
Proof.
  apply Measurement_init_inv in H as [_ ->]. rewrite dewPointC_built.
  pose proof (z3_lt T h HT Hh) as Hz.
  destruct (z3_sign T h ltac:(lra)) as [Hp Hn].
  split; intros He.
  - specialize (Hp He).
    assert (Hd : 0 <= dew_raw T h).
    { unfold dew_raw. apply Rmult_le_pos; [lra|].
      left. apply Rinv_0_lt_compat. lra. }
    pose proof (tenth_int_nonneg _ Hd). lra.
  - specialize (Hn He).
    assert (Hd : dew_raw T h <= 0).
    { unfold dew_raw.
      replace (235 * z3_at T h / (7.45 - z3_at T h))
        with (- ((235 * - z3_at T h) / (7.45 - z3_at T h))) by (field; lra).
      assert (0 <= 235 * - z3_at T h / (7.45 - z3_at T h)); [|lra].
      apply Rmult_le_pos; [lra|]. left. apply Rinv_0_lt_compat. lra. }
    destruct (Rle_dec 0 (dew_raw T h)) as [Hd0|Hd0].
    + pose proof (tenth_int_nonneg _ Hd0). lra.
    + pose proof (tenth_int_neg (dew_raw T h) ltac:(lra)). lra.
Qed.

Lemma dew_point_sign_witness :
  (6.1 <= e_at 0 100 -> 0 <= dewPointC (built 0 100)) /\
  (e_at 0 100 <= 6.1 -> dewPointC (built 0 100) <= 0).
Proof.
  apply (dew_point_sign 0 100); [lra|lra|constructed].
Defined.

(** ** The requests for device information and battery level *)

Section Requests.

Variable c : BleakClient.

Ltac read_next :=
  match goal with
  | |- context [on_read c ?u] =>
      let E := fresh "Er" in
      destruct (on_read c u) as [?e|?v] eqn:E; simpl; try discriminate
  end.

Ltac decode_next :=
  match goal with
  | |- context [Bytes.well_formed [] ?v] =>
      let E := fresh "Ew" in
      destruct (Bytes.well_formed [] v) eqn:E; simpl; try discriminate
  end.

Lemma requestDeviceInfo_inv (_mac : string) (t : list action)
    (d : DeviceInfo.t) :
  requestDeviceInfo c _mac = (t, inr d) ->
  t = info_reads /\ DeviceInfo.macAddress d = _mac /\
  on_read c _CHARACTERISTIC_NAME = inr (DeviceInfo.name d) /\
  on_read c _CHARACTERISTIC_MANUFACTURER = inr (DeviceInfo.manufacturer d) /\
  on_read c _CHARACTERISTIC_MODEL = inr (DeviceInfo.model d) /\
  on_read c _CHARACTERISTIC_HARDWARE = inr (DeviceInfo.hardware d) /\
  on_read c _CHARACTERISTIC_FIRMWARE = inr (DeviceInfo.firmware d) /\
  Bytes.well_formed [] (DeviceInfo.name d) = true /\
  Bytes.well_formed [] (DeviceInfo.manufacturer d) = true /\
  Bytes.well_formed [] (DeviceInfo.model d) = true /\
  Bytes.well_formed [] (DeviceInfo.hardware d) = true /\
  Bytes.well_formed [] (DeviceInfo.firmware d) = true.
Proof.
  unfold requestDeviceInfo, read_gatt_char, io_bind, decoded, Bytes.decode,
    io_ret, io_raise.
  do 5 read_next. do 5 decode_next.
  intros H. injection H as <- <-. simpl. repeat split; assumption.
Qed.

Lemma requestDeviceInfo_reads_ok (_mac v1 v2 v3 v4 v5 : string) :
  on_read c _CHARACTERISTIC_NAME = inr v1 ->
  on_read c _CHARACTERISTIC_MANUFACTURER = inr v2 ->
  on_read c _CHARACTERISTIC_MODEL = inr v3 ->
  on_read c _CHARACTERISTIC_HARDWARE = inr v4 ->
  on_read c _CHARACTERISTIC_FIRMWARE = inr v5 ->
  requestDeviceInfo c _mac
  = (info_reads,
     if Bytes.well_formed [] v1 && Bytes.well_formed [] v2
        && Bytes.well_formed [] v3 && Bytes.well_formed [] v4
        && Bytes.well_formed [] v5
     then inr (DeviceInfo.mk _mac v1 v2 v3 v4 v5)
     else inl (PyError UnicodeDecodeError)).
Proof.
  intros E1 E2 E3 E4 E5.
  unfold requestDeviceInfo, read_gatt_char, io_bind, decoded, Bytes.decode,
    io_ret, io_raise.
  rewrite E1, E2, E3, E4, E5.
  destruct (Bytes.well_formed [] v1); [|reflexivity].
  destruct (Bytes.well_formed [] v2); [|reflexivity].
  destruct (Bytes.well_formed [] v3); [|reflexivity].
  destruct (Bytes.well_formed [] v4); [|reflexivity].
  destruct (Bytes.well_formed [] v5); reflexivity.
Qed.

End Requests.

(** X13: when [requestDeviceInfo] returns, it has made exactly the five
    reads, in the order name, manufacturer, model, hardware, firmware; the
    record holds what those reads returned, each well-formed UTF-8, and its
    MAC address is the one the object was created with, not one read from
    the device. *)
Theorem device_info_success (c : BleakClient) (_mac : string)
    (t : list action) (d : DeviceInfo.t)
    (H : requestDeviceInfo c _mac = (t, inr d)) :
  t = info_reads /\ DeviceInfo.macAddress d = _mac /\
  on_read c _CHARACTERISTIC_NAME = inr (DeviceInfo.name d) /\
  on_read c _CHARACTERISTIC_MANUFACTURER = inr (DeviceInfo.manufacturer d) /\
  on_read c _CHARACTERISTIC_MODEL = inr (DeviceInfo.model d) /\
  on_read c _CHARACTERISTIC_HARDWARE = inr (DeviceInfo.hardware d) /\
  on_read c _CHARACTERISTIC_FIRMWARE = inr (DeviceInfo.firmware d) /\
  Bytes.well_formed [] (DeviceInfo.name d) = true /\
  Bytes.well_formed [] (DeviceInfo.manufacturer d) = true /\
  Bytes.well_formed [] (DeviceInfo.model d) = true /\
  Bytes.well_formed [] (DeviceInfo.hardware d) = true /\
  Bytes.well_formed [] (DeviceInfo.firmware d) = true.
Proof.
  pose proof (requestDeviceInfo_inv c _mac t d H) as R.
  destruct R as (Ht & Hm & R). split; [exact Ht|]. split; [exact Hm|].
  exact R.
Qed.

Lemma device_info_success_witness :
  info_reads = info_reads /\
  DeviceInfo.macAddress
    (DeviceInfo.mk "4c:65:a8:00:00:01" "MJ_HT_V1" "MJ_HT_V1" "MJ_HT_V1"
       "MJ_HT_V1" "MJ_HT_V1") = "4c:65:a8:00:00:01" /\
  on_read sensor _CHARACTERISTIC_NAME = inr "MJ_HT_V1" /\
  on_read sensor _CHARACTERISTIC_MANUFACTURER = inr "MJ_HT_V1" /\
  on_read sensor _CHARACTERISTIC_MODEL = inr "MJ_HT_V1" /\
  on_read sensor _CHARACTERISTIC_HARDWARE = inr "MJ_HT_V1" /\
  on_read sensor _CHARACTERISTIC_FIRMWARE = inr "MJ_HT_V1" /\
  Bytes.well_formed [] "MJ_HT_V1" = true /\
  Bytes.well_formed [] "MJ_HT_V1" = true /\
  Bytes.well_formed [] "MJ_HT_V1" = true /\
  Bytes.well_formed [] "MJ_HT_V1" = true /\
  Bytes.well_formed [] "MJ_HT_V1" = true.
Proof.
  apply (device_info_success sensor "4c:65:a8:00:00:01" info_reads
           (DeviceInfo.mk "4c:65:a8:00:00:01" "MJ_HT_V1" "MJ_HT_V1"
              "MJ_HT_V1" "MJ_HT_V1" "MJ_HT_V1")).
  reflexivity.
Defined.

(** X14: when the five reads succeed, [requestDeviceInfo] returns the
    record if all five values are well-formed UTF-8 and raises
    [UnicodeDecodeError] if one is not; in both cases all five reads have
    been made. *)
Theorem device_info_decoding (c : BleakClient) (_mac v1 v2 v3 v4 v5 : string)
    (E1 : on_read c _CHARACTERISTIC_NAME = inr v1)
    (E2 : on_read c _CHARACTERISTIC_MANUFACTURER = inr v2)
    (E3 : on_read c _CHARACTERISTIC_MODEL = inr v3)
    (E4 : on_read c _CHARACTERISTIC_HARDWARE = inr v4)
    (E5 : on_read c _CHARACTERISTIC_FIRMWARE = inr v5) :
  (Forall (fun v => Bytes.well_formed [] v = true) [v1; v2; v3; v4; v5] ->
   requestDeviceInfo c _mac
   = (info_reads, inr (DeviceInfo.mk _mac v1 v2 v3 v4 v5))) /\
  (Exists (fun v => Bytes.well_formed [] v = false) [v1; v2; v3; v4; v5] ->
   requestDeviceInfo c _mac = (info_reads, inl (PyError UnicodeDecodeError))).
Proof.
  rewrite (requestDeviceInfo_reads_ok c _mac v1 v2 v3 v4 v5) by assumption.
  split.
  - intros F.
    repeat match goal with
    | H : Forall _ (_ :: _) |- _ => inversion H as [|? ? ?W ?F']; subst; clear H
    end.
    repeat match goal with W : Bytes.well_formed _ _ = true |- _ =>
      rewrite W; clear W end.
    reflexivity.
  - intros X.
    repeat match goal with
    | H : Exists _ (_ :: _) |- _ => inversion H as [? ? W|? ? ?]; subst; clear H
    | H : Exists _ [] |- _ => inversion H
    end;
    rewrite W, ?andb_false_r; reflexivity.
Qed.

Lemma device_info_decoding_witness :
  (Forall (fun v => Bytes.well_formed [] v = true)
     ["MJ_HT_V1"; "MJ_HT_V1"; "MJ_HT_V1"; "MJ_HT_V1"; "MJ_HT_V1"] ->
   requestDeviceInfo sensor "4c:65:a8:00:00:01"
   = (info_reads,
      inr (DeviceInfo.mk "4c:65:a8:00:00:01" "MJ_HT_V1" "MJ_HT_V1" "MJ_HT_V1"
             "MJ_HT_V1" "MJ_HT_V1"))) /\
  (Exists (fun v => Bytes.well_formed [] v = false)
     ["MJ_HT_V1"; "MJ_HT_V1"; "MJ_HT_V1"; "MJ_HT_V1"; "MJ_HT_V1"] ->
   requestDeviceInfo sensor "4c:65:a8:00:00:01"
   = (info_reads, inl (PyError UnicodeDecodeError))).
Proof.
  apply (device_info_decoding sensor "4c:65:a8:00:00:01"); reflexivity.
Defined.

(** X15: when [requestDeviceInfo] raises, either one read failed, that
    read was the last one made and its exception is the one raised, or
    all five reads were made and the exception is [UnicodeDecodeError]. *)
Theorem device_info_failure (c : BleakClient) (_mac : string)
    (t : list action) (e : error)
    (H : requestDeviceInfo c _mac = (t, inl e)) :
  (exists pre uuid rest,
      info_reads = (pre ++ Read uuid :: rest)%list /\
      t = (pre ++ [Read uuid])%list /\ on_read c uuid = inl e) \/
  (t = info_reads /\ e = PyError UnicodeDecodeError).
Proof.
  revert H.
  unfold requestDeviceInfo, read_gatt_char, io_bind, decoded, Bytes.decode,
    io_ret, io_raise.
  destruct (on_read c _CHARACTERISTIC_NAME) as [e1|v1] eqn:E1; simpl.
  { intros H. injection H as <- <-. left.
    exists [], _CHARACTERISTIC_NAME, (tl info_reads). auto. }
  destruct (on_read c _CHARACTERISTIC_MANUFACTURER) as [e2|v2] eqn:E2; simpl.
  { intros H. injection H as <- <-. left.
    exists (firstn 1 info_reads), _CHARACTERISTIC_MANUFACTURER,
      (skipn 2 info_reads). auto. }
  destruct (on_read c _CHARACTERISTIC_MODEL) as [e3|v3] eqn:E3; simpl.
  { intros H. injection H as <- <-. left.
    exists (firstn 2 info_reads), _CHARACTERISTIC_MODEL,
      (skipn 3 info_reads). auto. }
  destruct (on_read c _CHARACTERISTIC_HARDWARE) as [e4|v4] eqn:E4; simpl.
  { intros H. injection H as <- <-. left.
    exists (firstn 3 info_reads), _CHARACTERISTIC_HARDWARE,
      (skipn 4 info_reads). auto. }
  destruct (on_read c _CHARACTERISTIC_FIRMWARE) as [e5|v5] eqn:E5; simpl.
  { intros H. injection H as <- <-. left.
    exists (firstn 4 info_reads), _CHARACTERISTIC_FIRMWARE, []. auto. }
  destruct (Bytes.well_formed [] v1); simpl;
    [|intros H; injection H as <- <-; right; split; reflexivity].
  destruct (Bytes.well_formed [] v2); simpl;
    [|intros H; injection H as <- <-; right; split; reflexivity].
  destruct (Bytes.well_formed [] v3); simpl;
    [|intros H; injection H as <- <-; right; split; reflexivity].
  destruct (Bytes.well_formed [] v4); simpl;
    [|intros H; injection H as <- <-; right; split; reflexivity].
  destruct (Bytes.well_formed [] v5); simpl;
    [discriminate|intros H; injection H as <- <-; right; split; reflexivity].
Qed.

Lemma device_info_failure_witness :
  (exists pre uuid rest,
      info_reads = (pre ++ Read uuid :: rest)%list /\
      [Read _CHARACTERISTIC_NAME] = (pre ++ [Read uuid])%list /\
      on_read unreachable uuid = inl (BleakError "not connected")) \/
  ([Read _CHARACTERISTIC_NAME] = info_reads /\
   BleakError "not connected" = PyError UnicodeDecodeError).
Proof.
  apply (device_info_failure unreachable "4c:65:a8:00:00:01").
  reflexivity.
Defined.

(** X16: [requestBatteryLevel] makes one read.  When the read returns
    exactly one byte, the result is the value of that byte, a number below
    256 that is not checked against 100; a buffer of any other length
    raises [struct.error]. *)
Theorem battery_level_outcome (c : BleakClient) (b : string)
    (H : on_read c _CHARACTERISTIC_BATTERY_LEVEL = inr b) :
  (String.length b = 1%nat ->
   exists n, requestBatteryLevel c
             = ([Read _CHARACTERISTIC_BATTERY_LEVEL], inr n) /\
             (n < 256)%N /\ b = String (ascii_of_N n) EmptyString) /\
  (String.length b <> 1%nat ->
   requestBatteryLevel c
   = ([Read _CHARACTERISTIC_BATTERY_LEVEL], inl StructError)).
Proof.
  unfold requestBatteryLevel, read_gatt_char, io_bind. rewrite H. split.
  - intros L. destruct b as [|byte [|? ?]]; try discriminate.
    exists (N_of_ascii byte). simpl. split; [reflexivity|].
    split; [apply N_ascii_bounded|]. now rewrite ascii_N_embedding.
  - intros L. destruct b as [|byte [|? ?]]; try reflexivity.
    now elim L.
Qed.

Lemma battery_level_outcome_witness :
  (String.length (String (ascii_of_N 87) EmptyString) = 1%nat ->
   exists n, requestBatteryLevel sensor
             = ([Read _CHARACTERISTIC_BATTERY_LEVEL], inr n) /\
             (n < 256)%N /\
             String (ascii_of_N 87) EmptyString
             = String (ascii_of_N n) EmptyString) /\
  (String.length (String (ascii_of_N 87) EmptyString) <> 1%nat ->
   requestBatteryLevel sensor
   = ([Read _CHARACTERISTIC_BATTERY_LEVEL], inl StructError)).
Proof.
  apply (battery_level_outcome sensor). reflexivity.
Defined.

(** ** main *)

Section Main.

Variable format_1f : R -> string.
Variable c : BleakClient.

Lemma requestDeviceInfo_ble (_mac : string) :
  forallb is_ble (fst (requestDeviceInfo c _mac)) = true.
Proof.
  unfold requestDeviceInfo, read_gatt_char, io_bind, decoded, Bytes.decode,
    io_ret, io_raise.
  repeat match goal with
  | |- context [on_read c ?u] =>
      destruct (on_read c u); simpl; try reflexivity
  end.
  repeat match goal with
  | |- context [Bytes.well_formed [] ?v] =>
      destruct (Bytes.well_formed [] v); simpl; try reflexivity
  end.
Qed.

Lemma requestBatteryLevel_ble :
  forallb is_ble (fst (requestBatteryLevel c)) = true.
Proof.
  unfold requestBatteryLevel, read_gatt_char, io_bind, unpack_B.
  destruct (on_read c _CHARACTERISTIC_BATTERY_LEVEL) as [e|b];
    [reflexivity|].
  destruct b as [|byte [|? ?]]; reflexivity.
Qed.

Lemma sleeps_ble (i : nat) : forallb is_ble (repeat Sleep i) = true.
Proof. induction i; simpl; auto. Qed.

Lemma requestMeasurement_io_returns (fuel : nat) (st : option Measurement) :
  (10 < fuel)%nat ->
  exists t r, requestMeasurement_io fuel c st = Some (t, r) /\
              forallb is_ble t = true.
Proof.
  intros Hf. unfold requestMeasurement_io.
  destruct (on_start_notify c); [eauto|].
  destruct (on_write c); [eauto|].
  destruct (requestMeasurement_returns (delivered c) fuel st Hf)
    as (r & i & -> & _).
  eexists _, _. split; [reflexivity|].
  simpl. rewrite forallb_app, sleeps_ble. reflexivity.
Qed.

Lemma info_step_sound (_mac : string) (acc : collected) :
  paired acc ->
  forall t acc' e, info_step c _mac acc = (t, acc', e) ->
  forallb is_ble t = true /\ paired acc'.
Proof.
  intros P t acc' e. unfold info_step.
  pose proof (requestDeviceInfo_ble _mac) as B.
  destruct (requestDeviceInfo c _mac) as [t0 [e0|d]]; simpl in B;
    intros H; injection H as <- <- <-; split; try assumption.
  unfold paired in *. simpl. rewrite !length_app. simpl. lia.
Qed.

Lemma battery_step_sound (acc : collected) :
  paired acc ->
  forall t acc' e, battery_step c acc = (t, acc', e) ->
  forallb is_ble t = true /\ paired acc'.
Proof.
  intros P t acc' e. unfold battery_step.
  pose proof requestBatteryLevel_ble as B.
  destruct (requestBatteryLevel c) as [t0 [e0|n]]; simpl in B;
    intros H; injection H as <- <- <-; split; try assumption.
  unfold paired in *. simpl. rewrite !length_app. simpl. lia.
Qed.

Lemma measure_step_sound (fuel : nat) (acc : collected) :
  (10 < fuel)%nat -> paired acc ->
  exists t acc' e, measure_step fuel format_1f c acc = Some (t, acc', e) /\
                   forallb is_ble t = true /\ paired acc'.
Proof.
  intros Hf P. unfold measure_step.
  destruct (requestMeasurement_io_returns fuel None Hf) as (t & r & -> & B).
  destruct r as [e|[m|]]; eexists _, _, _; (split; [reflexivity|]);
    split; try assumption.
  unfold paired in *. simpl. rewrite !length_app. simpl. lia.
Qed.

Lemma and_then_sound (p : progress) (step : collected -> progress) :
  sound p ->
  (forall acc, paired acc -> forall t acc' e, step acc = (t, acc', e) ->
     forallb is_ble t = true /\ paired acc') ->
  sound (and_then p step).
Proof.
  destruct p as [[t acc] [e|]]; intros S Hs; [exact S|].
  destruct S as ([t' ->] & B & P). unfold and_then.
  destruct (step acc) as [[t1 acc1] e1] eqn:E.
  destruct (Hs acc P t1 acc1 e1 E) as [B1 P1].
  split; [eexists; reflexivity|]. split; [|exact P1].
  rewrite forallb_app, B, B1. reflexivity.
Qed.

Lemma try_block_sound (fuel : nat) (args : Args.t) :
  (10 < fuel)%nat ->
  exists p, try_block fuel format_1f args c = Some p /\ sound p.
Proof.
  intros Hf. unfold try_block.
  set (p0 := ([Connect], ([], []), on_connect c) : progress).
  assert (S0 : sound p0).
  { split; [eexists; reflexivity|]. split; reflexivity. }
  set (p1 := if Args.info args then and_then p0 (info_step c (Args.mac args))
             else p0).
  assert (S1 : sound p1).
  { unfold p1. destruct (Args.info args); [|exact S0].
    apply and_then_sound; [exact S0|]. intros acc P. now apply info_step_sound. }
  set (p2 := if Args.battery args then and_then p1 (battery_step c) else p1).
  assert (S2 : sound p2).
  { unfold p2. destruct (Args.battery args); [|exact S1].
    apply and_then_sound; [exact S1|]. intros acc P.
    now apply battery_step_sound. }
  destruct (Args.measure args); [|eauto].
  destruct p2 as [[t acc] [e|]]; [simpl; eauto|].
  destruct S2 as ([t' ->] & B & P). unfold and_then_opt.
  destruct (measure_step_sound fuel acc Hf P) as (t1 & acc1 & e1 & -> & B1 & P1).
  eexists. split; [reflexivity|].
  split; [eexists; reflexivity|]. split; [|exact P1].
  rewrite forallb_app, B, B1. reflexivity.
Qed.

Lemma report_prints (args : Args.t) (acc : collected) :
  forallb is_print (report args acc) = true /\
  (List.length (report args acc) <= 1)%nat.
Proof.
  unfold report. destruct (Args.json args && nonempty (fst acc));
    [simpl; auto|].
  destruct (nonempty (snd acc)); simpl; auto.
Qed.

Lemma report_json (args : Args.t) (acc : collected) :
  Args.json args = true -> paired acc ->
  forallb (fun a => negb (is_text a)) (report args acc) = true.
Proof.
  intros J P. unfold report. rewrite J. simpl.
  destruct acc as [[|x data] [|y output]]; try reflexivity.
  discriminate P.
Qed.

Lemma ble_not_text (t : list action) :
  forallb is_ble t = true -> forallb (fun a => negb (is_text a)) t = true.
Proof.
  induction t as [|a t IH]; simpl; [reflexivity|].
  intros H. apply andb_prop in H as [Ha Ht]. rewrite (IH Ht).
  destruct a; try discriminate; reflexivity.
Qed.

End Main.

(** X17: with enough fuel for the ten polls, [main] always ends, and its
    actions are: the connection attempt first, then BLE calls only, then
    the message of a caught exception if there was one, then one
    [disconnect], then at most one printed report.  [disconnect] is thus
    attempted exactly once on every run, also when the connection failed,
    and nothing is reported when it raises. *)
Theorem main_always_disconnects (fuel : nat) (format_1f : R -> string)
    (args : Args.t) (c : BleakClient) (Hf : (10 < fuel)%nat) :
  exists ble caught printed,
    main fuel format_1f args c
    = Some ((ble ++ caught ++ [Disconnect] ++ printed)%list, on_disconnect c) /\
    (exists t', ble = Connect :: t') /\
    forallb is_ble ble = true /\
    forallb is_print caught = true /\ (List.length caught <= 1)%nat /\
    forallb is_print printed = true /\ (List.length printed <= 1)%nat /\
    (on_disconnect c <> None -> printed = []).
Proof.
  destruct (try_block_sound format_1f c fuel args Hf)
    as ([[t acc] e] & E & (Hc & B & P)).
  unfold main. rewrite E.
  exists t, (match e with Some e0 => [PrintException e0] | None => [] end).
  destruct (report_prints args acc) as [Rp Rl].
  destruct (on_disconnect c) as [e'|].
  - exists []. rewrite app_nil_r.
    repeat split; try assumption; try reflexivity;
      destruct e; simpl; auto.
  - exists (report args acc).
    repeat split; try assumption; try (destruct e; simpl; auto; fail).
    intros N. now elim N.
Qed.

Lemma main_always_disconnects_witness :
  exists ble caught printed,
    main 11 (fun _ => "?") (Args.mk "4c:65:a8:00:00:01" false true true true)
      sensor
    = Some ((ble ++ caught ++ [Disconnect] ++ printed)%list,
            on_disconnect sensor) /\
    (exists t', ble = Connect :: t') /\
    forallb is_ble ble = true /\
    forallb is_print caught = true /\ (List.length caught <= 1)%nat /\
    forallb is_print printed = true /\ (List.length printed <= 1)%nat /\
    (on_disconnect sensor <> None -> printed = []).
Proof.
  apply (main_always_disconnects 11). lia.
Defined.

(** X18: [data] and [output] are filled together, so with the JSON flag
    [main] never prints the text report: it prints the JSON document, or
    nothing when nothing was collected. *)
Theorem main_json_never_text (fuel : nat) (format_1f : R -> string)
    (args : Args.t) (c : BleakClient) (t : list action) (r : option error)
    (Hf : (10 < fuel)%nat)
    (H : main fuel format_1f args c = Some (t, r))
    (J : Args.json args = true) :
  forallb (fun a => negb (is_text a)) t = true.
Proof.
  destruct (try_block_sound format_1f c fuel args Hf)
    as ([[t0 acc] e] & E & (Hc & B & P)).
  unfold main in H. rewrite E in H.
  assert (C : forallb (fun a => negb (is_text a))
                (match e with Some e0 => [PrintException e0] | None => [] end)
              = true) by (destruct e; reflexivity).
  destruct (on_disconnect c); injection H as <- <-;
    rewrite !forallb_app, (ble_not_text _ B), C; simpl;
    [reflexivity|].
  now apply report_json.
Qed.

Lemma main_json_never_text_witness :
  forallb (fun a => negb (is_text a))
    ([Connect] ++ info_reads ++ [Read _CHARACTERISTIC_BATTERY_LEVEL]
       ++ [Disconnect]
       ++ [PrintJson
             [("info",
               inl (inl (DeviceInfo.to_dict
                           (DeviceInfo.mk "4c:65:a8:00:00:01" "MJ_HT_V1"
                              "MJ_HT_V1" "MJ_HT_V1" "MJ_HT_V1" "MJ_HT_V1"))));
              ("battery", inl (inr 87%N))]])%list = true.
Proof.
  apply (main_json_never_text 11 (fun _ => "?")
           (Args.mk "4c:65:a8:00:00:01" false true true true) sensor _ None).
  - lia.
  - reflexivity.
  - reflexivity.
Defined.

Section MainPaths.

Variable format_1f : R -> string.
Variable c : BleakClient.

Lemma measure_step_timeout (fuel : nat) (acc : collected) :
  (10 < fuel)%nat ->
  on_start_notify c = None -> on_write c = None -> silent (delivered c) ->
  measure_step fuel format_1f c acc
  = Some (measure_actions 10, acc, Some AttributeError).
Proof.
  intros Hf Hs Hw Hq. unfold measure_step, requestMeasurement_io.
  rewrite Hs, Hw, (requestMeasurement_silent (delivered c) fuel Hf Hq).
  reflexivity.
Qed.

Lemma try_block_split (fuel : nat) (args : Args.t) :
  Args.measure args = true ->
  forall p, try_block fuel format_1f (without_measure args) c = Some p ->
  try_block fuel format_1f args c
  = and_then_opt p (measure_step fuel format_1f c).
Proof.
  intros Hm p. unfold try_block. rewrite Hm. simpl.
  intros H. now injection H as <-.
Qed.

End MainPaths.

(** X19: a measurement that times out.  When the sections before the
    measurement went through, the notifications can be started and no
    notification of the call yields a Measurement, [main] sleeps ten times,
    then fails on [measurement.to_dict()] with [AttributeError], prints
    that exception, disconnects, and still reports what the earlier
    sections collected. *)
Theorem main_measurement_timeout (fuel : nat) (format_1f : R -> string)
    (args : Args.t) (c : BleakClient) (t0 : list action) (acc : collected)
    (Hf : (10 < fuel)%nat)
    (Hm : Args.measure args = true)
    (H0 : try_block fuel format_1f (without_measure args) c
          = Some (t0, acc, None))
    (Hs : on_start_notify c = None) (Hw : on_write c = None)
    (Hq : silent (delivered c))
    (Hd : on_disconnect c = None) :
  main fuel format_1f args c
  = Some ((t0 ++ measure_actions 10
              ++ [PrintException AttributeError; Disconnect]
              ++ report (without_measure args) acc)%list, None).
Proof.
  unfold main.
  rewrite (try_block_split format_1f c fuel args Hm _ H0).
  unfold and_then_opt.
  rewrite (measure_step_timeout format_1f c fuel acc Hf Hs Hw Hq), Hd.
  rewrite <- !app_assoc. reflexivity.
Qed.

Lemma main_measurement_timeout_witness :
  main 11 (fun _ => "?") (Args.mk "4c:65:a8:00:00:01" true true false false)
    (mkClient None (on_read sensor) None None None
       (mkNotifications [] (fun _ => ["T=-5.0 H=40.0"]) []))
  = Some (([Connect; Read _CHARACTERISTIC_BATTERY_LEVEL]
             ++ measure_actions 10
             ++ [PrintException AttributeError; Disconnect]
             ++ [PrintText (String.concat nl [("Battery-Level:  87%" ++ nl)%string])])%list,
          None).
Proof.
  apply (main_measurement_timeout 11 (fun _ => "?")
           (Args.mk "4c:65:a8:00:00:01" true true false false)
           (mkClient None (on_read sensor) None None None
              (mkNotifications [] (fun _ => ["T=-5.0 H=40.0"]) []))
           [Connect; Read _CHARACTERISTIC_BATTERY_LEVEL]
           ([("battery", inl (inr 87%N))],
            [("Battery-Level:  87%" ++ nl)%string]));
    try reflexivity.
  - lia.
  - repeat split.
Defined.

(** X20: when the connection fails, [main] prints the exception,
    disconnects and does nothing else: no characteristic is read, no
    notification is started and nothing is reported, whatever the
    flags. *)
Theorem main_connect_failure (fuel : nat) (format_1f : R -> string)
    (args : Args.t) (c : BleakClient) (e : error)
    (H : on_connect c = Some e) :
  main fuel format_1f args c
  = Some ([Connect; PrintException e; Disconnect], on_disconnect c).
Proof.
  unfold main, try_block, and_then, and_then_opt. rewrite H.
  destruct (Args.info args), (Args.battery args), (Args.measure args);
    destruct (on_disconnect c); unfold report; simpl;
    rewrite ?andb_false_r; reflexivity.
Qed.

Lemma main_connect_failure_witness :
  main 0 (fun _ => "?") (Args.mk "4c:65:a8:00:00:01" true true true false)
    unreachable
  = Some ([Connect; PrintException (BleakError "not found"); Disconnect],
          on_disconnect unreachable).
Proof.
  apply (main_connect_failure 0 (fun _ => "?")
           (Args.mk "4c:65:a8:00:00:01" true true true false) unreachable).
  reflexivity.
Defined.

(** X21: a section that fails does not undo the ones before it.  When
    the device information was read and the battery request raises, [main]
    prints the exception, disconnects, and then reports the device
    information alone; the measurement is not attempted. *)
Theorem main_partial_report (fuel : nat) (format_1f : R -> string)
    (args : Args.t) (c : BleakClient)
    (t1 t2 : list action) (d : DeviceInfo.t) (e : error)
    (Hi : Args.info args = true) (Hb : Args.battery args = true)
    (Hc : on_connect c = None)
    (H1 : requestDeviceInfo c (Args.mac args) = (t1, inr d))
    (H2 : requestBatteryLevel c = (t2, inl e))
    (Hd : on_disconnect c = None) :
  main fuel format_1f args c
  = Some (([Connect] ++ t1 ++ t2 ++ [PrintException e; Disconnect]
             ++ [if Args.json args
                 then PrintJson [("info", inl (inl (DeviceInfo.to_dict d)))]
                 else PrintText (DeviceInfo.str d ++ nl)%string])%list, None).
Proof.
  unfold main, try_block, and_then, and_then_opt, info_step, battery_step.
  rewrite Hi, Hb, Hc, H1, H2. simpl.
  destruct (Args.measure args); rewrite Hd; unfold report; simpl;
    destruct (Args.json args); simpl;
    rewrite <- ?app_assoc; reflexivity.
Qed.

Lemma main_partial_report_witness :
  main 0 (fun _ => "?") (Args.mk "4c:65:a8:00:00:01" true true true false)
    (mkClient None
       (fun uuid =>
          if String.eqb uuid _CHARACTERISTIC_BATTERY_LEVEL
          then inl (BleakError "read failed") else inr "MJ_HT_V1")
       None None None (mkNotifications [] (fun _ => []) []))
  = Some (([Connect] ++ info_reads ++ [Read _CHARACTERISTIC_BATTERY_LEVEL]
             ++ [PrintException (BleakError "read failed"); Disconnect]
             ++ [PrintText
                   (DeviceInfo.str
                      (DeviceInfo.mk "4c:65:a8:00:00:01" "MJ_HT_V1" "MJ_HT_V1"
                         "MJ_HT_V1" "MJ_HT_V1" "MJ_HT_V1") ++ nl)%string])%list,
          None).
Proof.
  apply (main_partial_report 0 (fun _ => "?")
           (Args.mk "4c:65:a8:00:00:01" true true true false)
           (mkClient None
              (fun uuid =>
                 if String.eqb uuid _CHARACTERISTIC_BATTERY_LEVEL
                 then inl (BleakError "read failed") else inr "MJ_HT_V1")
              None None None (mkNotifications [] (fun _ => []) []))
           info_reads [Read _CHARACTERISTIC_BATTERY_LEVEL]);
    reflexivity.
Defined.

Ltac section_entry_holds :=
  first
    [ left; split; [reflexivity|];
      eexists _, _; split; [eassumption|]; split; reflexivity
    | right; left; split; [reflexivity|];
      eexists _, _; split; [eassumption|]; split; reflexivity
    | right; right; split; [reflexivity|];
      eexists _, _; split; [eassumption|]; split; reflexivity ].

Ltac section_error_holds :=
  first
    [ left; split; [reflexivity|]; eexists; eassumption
    | right; left; split; [reflexivity|]; eexists; eassumption
    | right; right; split; [reflexivity|]; left; eexists; eassumption
    | right; right; split; [reflexivity|]; right;
      split; [reflexivity|]; eexists; eassumption ].

(** X22: the sections are collected in the order info, battery,
    measurement, and the block stops at the first one that fails.  After a
    successful connection, the keys of [data] are the requested sections
    before the first failing one; each entry of [data] and of [output] is
    what the request of its section returned; and the exception that ended
    the block is the one of the first requested section that is not in
    [data], none when all are. *)
Theorem main_sections_in_order (fuel : nat) (format_1f : R -> string)
    (args : Args.t) (c : BleakClient)
    (t : list action) (acc : collected) (e : option error)
    (H : try_block fuel format_1f args c = Some (t, acc, e))
    (Hc : on_connect c = None) :
  exists done rest,
    map fst (fst acc) = done /\
    requested args = (done ++ rest)%list /\
    Forall2
      (fun kv text =>
         section_entry fuel format_1f args c (fst kv) (snd kv) text)
      (fst acc) (snd acc) /\
    match rest with
    | [] => e = None
    | key :: _ => exists err, e = Some err /\ section_error fuel args c key err
    end.
Proof.
  revert H.
  unfold try_block, and_then, and_then_opt, info_step, battery_step,
    measure_step, requested.
  rewrite Hc.
  destruct (Args.info args), (Args.battery args), (Args.measure args);
    simpl;
    repeat match goal with
    | |- context [requestDeviceInfo c ?m] =>
        let E := fresh "Ei" in
        destruct (requestDeviceInfo c m) as [? [?|?]] eqn:E; simpl
    | |- context [requestBatteryLevel c] =>
        let E := fresh "Eb" in
        destruct (requestBatteryLevel c) as [? [?|?]] eqn:E; simpl
    | |- context [requestMeasurement_io fuel c None] =>
        let E := fresh "Em" in
        destruct (requestMeasurement_io fuel c None) as [[? [?|[?|]]]|] eqn:E;
        simpl
    end;
    intros H; try discriminate; injection H as <- <- <-;
    eexists _, _; (split; [reflexivity|]);
    (split; [simpl; reflexivity|]);
    (split;
     [ repeat (constructor; [section_entry_holds|]); constructor
     | simpl; try reflexivity;
       eexists; (split; [reflexivity|]); section_error_holds ]).
Qed.

Lemma main_sections_in_order_witness :
  exists done rest,
    map fst
      (fst (([("info",
               inl (inl (DeviceInfo.to_dict
                           (DeviceInfo.mk "4c:65:a8:00:00:01" "MJ_HT_V1"
                              "MJ_HT_V1" "MJ_HT_V1" "MJ_HT_V1" "MJ_HT_V1"))))],
             [(DeviceInfo.str
                 (DeviceInfo.mk "4c:65:a8:00:00:01" "MJ_HT_V1" "MJ_HT_V1"
                    "MJ_HT_V1" "MJ_HT_V1" "MJ_HT_V1") ++ nl)%string])
            : collected)) = done /\
    requested (Args.mk "4c:65:a8:00:00:01" false true true true)
    = (done ++ rest)%list /\
    Forall2
      (fun kv text =>
         section_entry 11 (fun _ => "?")
           (Args.mk "4c:65:a8:00:00:01" false true true true)
           (mkClient None
              (fun uuid =>
                 if String.eqb uuid _CHARACTERISTIC_BATTERY_LEVEL
                 then inr "ab" else inr "MJ_HT_V1")
              None None None (mkNotifications [] (fun _ => []) []))
           (fst kv) (snd kv) text)
      (fst (([("info",
               inl (inl (DeviceInfo.to_dict
                           (DeviceInfo.mk "4c:65:a8:00:00:01" "MJ_HT_V1"
                              "MJ_HT_V1" "MJ_HT_V1" "MJ_HT_V1" "MJ_HT_V1"))))],
             [(DeviceInfo.str
                 (DeviceInfo.mk "4c:65:a8:00:00:01" "MJ_HT_V1" "MJ_HT_V1"
                    "MJ_HT_V1" "MJ_HT_V1" "MJ_HT_V1") ++ nl)%string])
            : collected))
      (snd (([("info",
               inl (inl (DeviceInfo.to_dict
                           (DeviceInfo.mk "4c:65:a8:00:00:01" "MJ_HT_V1"
                              "MJ_HT_V1" "MJ_HT_V1" "MJ_HT_V1" "MJ_HT_V1"))))],
             [(DeviceInfo.str
                 (DeviceInfo.mk "4c:65:a8:00:00:01" "MJ_HT_V1" "MJ_HT_V1"
                    "MJ_HT_V1" "MJ_HT_V1" "MJ_HT_V1") ++ nl)%string])
            : collected)) /\
    match rest with
    | [] => Some StructError = None
    | key :: _ =>
        exists err,
          Some StructError = Some err /\
          section_error 11
            (Args.mk "4c:65:a8:00:00:01" false true true true)
            (mkClient None
               (fun uuid =>
                  if String.eqb uuid _CHARACTERISTIC_BATTERY_LEVEL
                  then inr "ab" else inr "MJ_HT_V1")
               None None None (mkNotifications [] (fun _ => []) []))
            key err
    end.
Proof.
  apply (main_sections_in_order 11 (fun _ => "?")
           (Args.mk "4c:65:a8:00:00:01" false true true true)
           (mkClient None
              (fun uuid =>
                 if String.eqb uuid _CHARACTERISTIC_BATTERY_LEVEL
                 then inr "ab" else inr "MJ_HT_V1")
              None None None (mkNotifications [] (fun _ => []) []))
           ([Connect] ++ info_reads
              ++ [Read _CHARACTERISTIC_BATTERY_LEVEL])%list);
    reflexivity.
Defined.
